(** * Attestation production and verification: the orchestration of
      [pkg/attestation]

    A shallow embedding of [attestation.go] and [verify.go].  The two Go
    functions [Attest] and [VerifyAttestation] orchestrate calls into
    external libraries (the TPM, the key-derivation functions, the TEE quote
    providers, the protobuf codecs, the quote verifiers).  Those calls are
    kept as the fields of two records of capabilities, and every call made is
    written to a trace, so that the order of the calls and the values handed
    to them can be stated. *)

From Stdlib Require Import ZArith Lia.
From stdpp Require Import base option list strings gmap.

Local Open Scope string_scope.
Local Open Scope Z_scope.
Local Open Scope list_scope.

(** ** Data model *)

(** Go's [[]byte]; the nil slice and the empty slice are both [[]]
    (the code only ever takes [len] of one). *)
Definition bytes : Type := list Byte.byte.

(** [tpm2.Algorithm] is a [uint16]. *)
Definition Algorithm : Type := Z.
Definition AlgRSA : Algorithm := 0x0001.
Definition AlgECC : Algorithm := 0x0023.

(** [pb.GCEConfidentialTechnology] is a protobuf enum, an [int32] in Go, so
    a value outside the named ones can reach the code. *)
Definition GCEConfidentialTechnology : Type := Z.
Definition GCEConfidentialTechnology_NONE : GCEConfidentialTechnology := 0.
Definition GCEConfidentialTechnology_AMD_SEV : GCEConfidentialTechnology := 1.
Definition GCEConfidentialTechnology_AMD_SEV_ES : GCEConfidentialTechnology := 2.
Definition GCEConfidentialTechnology_INTEL_TDX : GCEConfidentialTechnology := 3.
Definition GCEConfidentialTechnology_AMD_SEV_SNP : GCEConfidentialTechnology := 4.

(** The evidence messages of the two technologies ([sevsnp.Attestation],
    [tdx.QuoteV4]) are opaque to this package: it only passes them on. *)
Definition sevsnp_Attestation : Type := bytes.
Definition tdx_QuoteV4 : Type := bytes.

(** The [tee_attestation] oneof of [pb.Attestation]: the nil interface is
    [None], and the two wrapper types are the two constructors. *)
Inductive isAttestation_TeeAttestation : Type :=
| Attestation_SevSnpAttestation (SevSnpAttestation : sevsnp_Attestation)
| Attestation_TdxAttestation (TdxAttestation : tdx_QuoteV4).

Record GCEInstanceInfo : Type := mkGCEInstanceInfo {
  ProjectId : string;
  ProjectNumber : Z;
  Zone : string;
  InstanceId : Z;
  InstanceName : string
}.

(** [pb.Attestation], the wire record. *)
Record Attestation : Type := mkAttestation {
  AkPub : bytes;
  Quotes : bytes;
  EventLog : bytes;
  InstanceInfo : option GCEInstanceInfo;
  att_TeeAttestation : option isAttestation_TeeAttestation
}.

Definition GetTeeAttestation (a : Attestation) : option isAttestation_TeeAttestation :=
  att_TeeAttestation a.

Record PlatformState : Type := mkPlatformState {
  Firmware : bytes;
  Technology : GCEConfidentialTechnology
}.

Inductive isMachineState_TeeAttestation : Type :=
| MachineState_SevSnpAttestation (SevSnpAttestation : sevsnp_Attestation)
| MachineState_TdxAttestation (TdxAttestation : tdx_QuoteV4).

(** [pb.MachineState].  [Platform] is a pointer and may be nil; [RawEvents]
    stands for the fields this package never reads. *)
Record MachineState : Type := mkMachineState {
  Platform : option PlatformState;
  RawEvents : bytes;
  ms_TeeAttestation : option isMachineState_TeeAttestation
}.

Definition GetPlatform (ms : MachineState) : option PlatformState := Platform ms.

(** ** Errors

    Every error of the package is made by [fmt.Errorf]; the errors of the
    libraries it calls are opaque.  An error keeps its format string and its
    arguments, so that what [%v] prints and what [%w] wraps can be read off. *)
Inductive error : Type :=
| ExternalError (msg : string)
| Errorf (format : string) (args : list fmt_arg)
with fmt_arg : Type :=
| ArgError (e : option error)       (* an [error] value; [None] is nil *)
| ArgString (s : string)
| ArgType (go_type : string)        (* the operand of [%T] *)
| ArgAttestation (a : Attestation).

(** The dynamic type that [%T] prints for [attestation.GetTeeAttestation()]. *)
Definition type_of_tee (t : option isAttestation_TeeAttestation) : string :=
  match t with
  | None => "<nil>"
  | Some (Attestation_SevSnpAttestation _) => "*attest.Attestation_SevSnpAttestation"
  | Some (Attestation_TdxAttestation _) => "*attest.Attestation_TdxAttestation"
  end.

(** [errors.Unwrap]: only [%w] keeps its operand as the cause.  In this
    package [%w] is always the last verb of its format string and its
    operand the only argument. *)
Definition Unwrap (e : error) : option error :=
  match e with
  | Errorf format (ArgError (Some cause) :: _) =>
      if bool_decide (String.substring (String.length format - 2) 2 format = "%w")
      then Some cause else None
  | _ => None
  end.

(** ** Options handed to the external libraries *)

Definition PublicKey : Type := bytes.

(** [server.VerifyOpts{Nonce, TrustedAKs}]. *)
Record VerifyOpts : Type := mkVerifyOpts {
  vo_Nonce : bytes;
  TrustedAKs : list PublicKey
}.

(** The validation and verification option sets of go-tdx-guest and
    go-sev-guest are opaque to this package. *)
Definition tdx_validate_Options : Type := bytes.
Definition tdx_verify_Options : Type := bytes.
Definition sev_validate_Options : Type := bytes.

(** [&sv.Options{}], the zero value. *)
Inductive sev_verify_Options : Type := sv_Options_zero.

Record verifyTdxOpts : Type := mkVerifyTdxOpts {
  tdx_Validation : tdx_validate_Options;
  tdx_Verification : tdx_verify_Options
}.

Record verifySnpOpts : Type := mkVerifySnpOpts {
  snp_Validation : sev_validate_Options;
  snp_Verification : sev_verify_Options
}.

(** The four key-derivation functions named in the [attestationKeys] table. *)
Inductive KeyFunc : Type :=
| client_AttestationKeyRSA
| client_AttestationKeyECC
| client_GceAttestationKeyRSA
| client_GceAttestationKeyECC.

Inductive TEEDevice : Type := SevSnpQuoteProvider | TdxQuoteProvider.

(** [client.AttestOpts], the fields [Attest] sets. *)
Record AttestOpts : Type := mkAttestOpts {
  ao_Nonce : bytes;
  TCGEventLog : bytes;
  ao_TEEDevice : option TEEDevice;
  TEENonce : bytes
}.

(** ** Traces

    One event per call that leaves the package. *)
Inductive event : Type :=
| Call_OpenTPM
| Call_rwc_Close
| Call_createFunc (f : KeyFunc)
| Call_Key_Close (f : KeyFunc)
| Call_CreateSevSnpQuoteProvider
| Call_CreateTdxQuoteProvider
| Call_GetEventLog
| Call_Key_Attest (f : KeyFunc) (o : AttestOpts)
| Call_metadata (what : string)
| Call_ParseUint (s : string)
| Call_proto_Marshal (a : Attestation)
| Call_prototext_Format (a : Attestation)
| Call_proto_Unmarshal (b : bytes)
| Call_prototext_Unmarshal (b : bytes)
| Call_unmarshalOptions_Unmarshal (b : bytes)
| Call_DecodePublic (b : bytes)
| Call_Public_Key
| Call_server_VerifyAttestation (a : Attestation) (o : VerifyOpts)
| Call_tdxDefaultValidateOpts (n : bytes)
| Call_sevSnpDefaultValidateOpts (n : bytes)
| Call_verifyTdxAttestation (q : tdx_QuoteV4) (o : verifyTdxOpts)
| Call_verifySevSnpAttestation (r : sevsnp_Attestation) (o : verifySnpOpts).

(** ** A monad for Go function bodies

    A finished call either returned a value or panicked; both come with the
    trace of the calls made. *)
Inductive res (A : Type) : Type :=
| Done (a : A)
| Panicked.
Arguments Done {A} a.
Arguments Panicked {A}.

Definition M (A : Type) : Type := (list event * res A)%type.

(** Inside a body of a function that returns [R], a statement goes on with
    a value, or executes [return], or panics. *)
Inductive flow (R A : Type) : Type :=
| Next (a : A)
| Return (r : R)
| Panic.
Arguments Next {R A} a.
Arguments Return {R A} r.
Arguments Panic {R A}.

Definition Body (R A : Type) : Type := (list event * flow R A)%type.

Definition pure {R A} (a : A) : Body R A := ([], Next a).
Definition return_ {R A} (r : R) : Body R A := ([], Return r).
Definition panic {R A} : Body R A := ([], Panic).

Definition bind {R A B} (m : Body R A) (k : A -> Body R B) : Body R B :=
  match m with
  | (t, Next a) => let '(t', f) := k a in (t ++ t', f)
  | (t, Return r) => (t, Return r)
  | (t, Panic) => (t, Panic)
  end.

Declare Scope go_scope.
Delimit Scope go_scope with go.
Notation "x <- c ;; k" := (bind c (fun x => k))
  (at level 100, c at next level, right associativity) : go_scope.
Notation "c ;;; k" := (bind c (fun _ => k))
  (at level 100, right associativity) : go_scope.

(** A call that leaves the package: the event, then the library's answer. *)
Definition call {R A} (ev : event) (answer : A) : Body R A := ([ev], Next answer).

(** [func] closes a body into a function; [invoke] calls a function of the
    package from inside a body. *)
Definition func {R} (b : Body R R) : M R :=
  match b with
  | (t, Next r) => (t, Done r)
  | (t, Return r) => (t, Done r)
  | (t, Panic) => (t, Panicked)
  end.

Definition invoke {R A} (m : M A) : Body R A :=
  match m with
  | (t, Done a) => (t, Next a)
  | (t, Panicked) => (t, Panic)
  end.

(** [defer ev rest]: [rest] is the remainder of the function after the
    [defer] statement; the deferred call runs when it is left, by a return
    or by a panic. *)
Definition defer {R A} (ev : event) (rest : Body R A) : Body R A :=
  let '(t, f) := rest in (t ++ [ev], f).

Definition trace_of {A} (m : M A) : list event := fst m.
Definition result_of {A} (m : M A) : res A := snd m.

(** ** The verifier: [verify.go] *)

(** What [verify.go] calls and does not define.  The first group is the
    external libraries (protobuf, go-tpm, go-tpm-tools, go-tdx-guest); a
    library call answers with a value or with an error.  The second group is
    the four helpers of this package that [verify.go] uses and another file
    defines: they are taken as they are called, two builders of validation
    options from a nonce and two verifiers of one piece of evidence. *)
Record Verifier : Type := mkVerifier {
  proto_Unmarshal : bytes -> Attestation + error;
  unmarshalOptions_Unmarshal : bytes -> Attestation + error;
  tpm2_DecodePublic : bytes -> bytes + error;
  Public_Key : bytes -> PublicKey + error;
  server_VerifyAttestation : Attestation -> VerifyOpts -> MachineState + error;
  tv_DefaultOptions : tdx_verify_Options;

  tdxDefaultValidateOpts : bytes -> tdx_validate_Options;
  sevSnpDefaultValidateOpts : bytes -> sev_validate_Options;
  verifyTdxAttestation : tdx_QuoteV4 -> verifyTdxOpts -> option error;
  verifySevSnpAttestation : sevsnp_Attestation -> verifySnpOpts -> option error
}.

(** [proto.Clone] is a deep copy; on values it is the identity. *)
Definition proto_Clone {A : Type} (m : A) : A := m.

(** [&pb.MachineState{}]. *)
Definition MachineState_zero : MachineState :=
  {| Platform := None; RawEvents := []; ms_TeeAttestation := None |}.

(** [parseTEEAttestation] (verify.go, 73-96). *)
Definition parseTEEAttestation (attestation : Attestation) (tech : GCEConfidentialTechnology)
  : option MachineState * option error :=
  if tech =? GCEConfidentialTechnology_AMD_SEV_SNP then
    match att_TeeAttestation attestation with
    | Some (Attestation_SevSnpAttestation tee) =>
        (Some {| Platform := None; RawEvents := [];
                 ms_TeeAttestation := Some (MachineState_SevSnpAttestation (proto_Clone tee)) |},
         None)
    | _ =>
        (None, Some (Errorf "TEE attestation is %T, expected a SevSnpAttestation"
                            [ArgType (type_of_tee (GetTeeAttestation attestation))]))
    end
  else if tech =? GCEConfidentialTechnology_INTEL_TDX then
    match att_TeeAttestation attestation with
    | Some (Attestation_TdxAttestation tee) =>
        (Some {| Platform := None; RawEvents := [];
                 ms_TeeAttestation := Some (MachineState_TdxAttestation (proto_Clone tee)) |},
         None)
    | _ =>
        (None, Some (Errorf "TEE attestation is %T, expected a TdxAttestation"
                            [ArgType (type_of_tee (GetTeeAttestation attestation))]))
    end
  else
    (Some MachineState_zero, None).

(** [verifyGceTechnology] (verify.go, 98-145).  The type switch is on the
    evidence held by the record.  Its [default] arm ("unknown attestation
    type") has no value to run on: the oneof has the two wrapper types only. *)
Definition verifyGceTechnology (w : Verifier) (attestation : Attestation)
    (nonce teeNonce : bytes) : M (option error) :=
  func (
    match GetTeeAttestation attestation with
    | None => return_ None
    | Some (Attestation_TdxAttestation _) =>
        tdxOpts <-
          (if negb (length teeNonce =? 0)%nat then
             v <- call (Call_tdxDefaultValidateOpts teeNonce) (tdxDefaultValidateOpts w teeNonce) ;;
             pure {| tdx_Validation := v; tdx_Verification := tv_DefaultOptions w |}
           else
             v <- call (Call_tdxDefaultValidateOpts nonce) (tdxDefaultValidateOpts w nonce) ;;
             pure {| tdx_Validation := v; tdx_Verification := tv_DefaultOptions w |}) ;;
        match att_TeeAttestation attestation with
        | Some (Attestation_TdxAttestation tee) =>
            e <- call (Call_verifyTdxAttestation tee tdxOpts) (verifyTdxAttestation w tee tdxOpts) ;;
            return_ e
        | _ =>
            return_ (Some (Errorf "TEE attestation is %T, expected a TdxAttestation"
                                  [ArgType (type_of_tee (GetTeeAttestation attestation))]))
        end
    | Some (Attestation_SevSnpAttestation _) =>
        snpOpts <-
          (if negb (length teeNonce =? 0)%nat then
             v <- call (Call_sevSnpDefaultValidateOpts teeNonce) (sevSnpDefaultValidateOpts w teeNonce) ;;
             pure {| snp_Validation := v; snp_Verification := sv_Options_zero |}
           else
             v <- call (Call_sevSnpDefaultValidateOpts nonce) (sevSnpDefaultValidateOpts w nonce) ;;
             pure {| snp_Validation := v; snp_Verification := sv_Options_zero |}) ;;
        match att_TeeAttestation attestation with
        | Some (Attestation_SevSnpAttestation tee) =>
            e <- call (Call_verifySevSnpAttestation tee snpOpts) (verifySevSnpAttestation w tee snpOpts) ;;
            return_ e
        | _ =>
            return_ (Some (Errorf "TEE attestation is %T, expected a SevSnpAttestation"
                                  [ArgType (type_of_tee (GetTeeAttestation attestation))]))
        end
    end)%go.

(** [VerifyAttestation] (verify.go, 25-68).  The two results of the Go
    function are the two components of the pair. *)
Definition VerifyAttestation (w : Verifier) (attestationBytes : bytes) (format : string)
    (nonce teeNonce : bytes) : M (option MachineState * option error) :=
  func (
    attestation <-
      (if String.eqb format "binarypb" then
         r <- call (Call_proto_Unmarshal attestationBytes) (proto_Unmarshal w attestationBytes) ;;
         match r with
         | inr err => return_ (None, Some (Errorf "fail to unmarshal attestation report: %v"
                                                  [ArgError (Some err)]))
         | inl a => pure a
         end
       else if String.eqb format "textproto" then
         r <- call (Call_unmarshalOptions_Unmarshal attestationBytes)
                   (unmarshalOptions_Unmarshal w attestationBytes) ;;
         match r with
         | inr err => return_ (None, Some (Errorf "fail to unmarshal attestation report: %v"
                                                  [ArgError (Some err)]))
         | inl a => pure a
         end
       else
         return_ (None, Some (Errorf "format should be either binarypb or textproto" []))) ;;
    r <- call (Call_DecodePublic (AkPub attestation)) (tpm2_DecodePublic w (AkPub attestation)) ;;
    pub <- match r with
           | inr err => return_ (None, Some err)
           | inl pub => pure pub
           end ;;
    r <- call Call_Public_Key (Public_Key w pub) ;;
    cryptoPub <- match r with
                 | inr err => return_ (None, Some err)
                 | inl k => pure k
                 end ;;
    let opts := {| vo_Nonce := nonce; TrustedAKs := [cryptoPub] |} in
    r <- call (Call_server_VerifyAttestation attestation opts)
              (server_VerifyAttestation w attestation opts) ;;
    ms <- match r with
          | inr err => return_ (None, Some (Errorf "verifying TPM attestation: %w" [ArgError (Some err)]))
          | inl ms => pure ms
          end ;;
    err <- invoke (verifyGceTechnology w attestation nonce teeNonce) ;;
    match err with
    | Some err => return_ (None, Some (Errorf "verifying TEE attestation: %w" [ArgError (Some err)]))
    | None =>
        tech <- match GetPlatform ms with
                | Some p => pure (Technology p)
                | None => panic        (* [.Technology] of a nil [*PlatformState] *)
                end ;;
        match parseTEEAttestation attestation tech with
        | (_, Some err) =>
            return_ (None, Some (Errorf "failed to parse machineState from TEE attestation: %w"
                                        [ArgError (Some err)]))
        | (None, None) => panic          (* [teeMS.TeeAttestation] of a nil [teeMS] *)
        | (Some teeMS, None) =>
            let ms := {| Platform := Platform ms; RawEvents := RawEvents ms;
                         ms_TeeAttestation := ms_TeeAttestation teeMS |} in
            return_ (Some ms, None)
        end
    end)%go.

(** ** The producer: [attestation.go] *)

Definition SevSnp : string := "sev-snp".
Definition Tdx : string := "tdx".

(** The table [attestationKeys], a map of maps as in the source. *)
Definition attestationKeys : gmap string (gmap Z KeyFunc) :=
  {[ "AK" := {[ AlgRSA := client_AttestationKeyRSA; AlgECC := client_AttestationKeyECC ]};
     "gceAK" := {[ AlgRSA := client_GceAttestationKeyRSA; AlgECC := client_GceAttestationKeyECC ]} ]}.

Record AttestOptions : Type := mkAttestOptions {
  Key : string;
  KeyAlgo : Algorithm;
  Nonce : bytes;
  TeeTechnology : string;
  TeeNonce : bytes;
  Format : string
}.

Definition DefaultAttestOptions : AttestOptions :=
  {| Key := "AK"; KeyAlgo := AlgRSA; Nonce := []; TeeTechnology := "";
     TeeNonce := []; Format := "binarypb" |}.

(** What [attestation.go] calls and does not define: the TPM device, the
    key-derivation functions, the quote providers, the metadata server, the
    protobuf codecs.  An answer [None] of a call that only may fail is
    success. *)
Record Producer : Type := mkProducer {
  tpm2_OpenTPM : option error;
  run_createFunc : KeyFunc -> option error;
  client_CreateSevSnpQuoteProvider : option error;
  client_CreateTdxQuoteProvider : option error;
  client_GetEventLog : bytes + error;
  Key_Attest : KeyFunc -> AttestOpts -> Attestation + error;
  metadata_ProjectID : string + error;
  metadata_NumericProjectID : string + error;
  metadata_Zone : string + error;
  metadata_InstanceID : string + error;
  metadata_InstanceName : string + error;
  strconv_ParseUint : string -> Z + error;
  proto_Marshal : Attestation -> bytes + error;
  marshalOptions_Format : Attestation -> bytes;
  attest_proto_Unmarshal : bytes -> Attestation + error;
  prototext_Unmarshal : bytes -> Attestation + error
}.

(** [getInstanceInfoFromMetadata] (attestation.go, 174-213). *)
Definition getInstanceInfoFromMetadata (w : Producer)
  : M (option GCEInstanceInfo * option error) :=
  func (
    r <- call (Call_metadata "ProjectID") (metadata_ProjectID w) ;;
    projectId <- match r with inr err => return_ (None, Some err) | inl v => pure v end ;;
    r <- call (Call_metadata "NumericProjectID") (metadata_NumericProjectID w) ;;
    projectNumber <- match r with inr err => return_ (None, Some err) | inl v => pure v end ;;
    r <- call (Call_ParseUint projectNumber) (strconv_ParseUint w projectNumber) ;;
    projectNumber <- match r with inr err => return_ (None, Some err) | inl v => pure v end ;;
    r <- call (Call_metadata "Zone") (metadata_Zone w) ;;
    zone <- match r with inr err => return_ (None, Some err) | inl v => pure v end ;;
    r <- call (Call_metadata "InstanceID") (metadata_InstanceID w) ;;
    instanceID <- match r with inr err => return_ (None, Some err) | inl v => pure v end ;;
    r <- call (Call_ParseUint instanceID) (strconv_ParseUint w instanceID) ;;
    instanceId <- match r with inr err => return_ (None, Some err) | inl v => pure v end ;;
    r <- call (Call_metadata "InstanceName") (metadata_InstanceName w) ;;
    instanceName <- match r with inr err => return_ (None, Some err) | inl v => pure v end ;;
    return_ (Some {| ProjectId := projectId; ProjectNumber := projectNumber; Zone := zone;
                     InstanceId := instanceId; InstanceName := instanceName |},
             None))%go.

(** [Attest] (attestation.go, 71-150).  [err] is the variable of the Go
    function: after the device is open it holds nil until the [switch]
    assigns to it. *)
Definition Attest (w : Producer) (opts : AttestOptions) : M (option bytes * option error) :=
  func (
    r <- call Call_OpenTPM (tpm2_OpenTPM w) ;;
    match r with
    | Some err => return_ (None, Some (Errorf "failed to open TPM: %v" [ArgError (Some err)]))
    | None =>
    let err : option error := None in
    defer Call_rwc_Close (
      (if negb (String.eqb (Format opts) "binarypb" || String.eqb (Format opts) "textproto") then
         return_ (None, Some (Errorf "format should be either binarypb or textproto" []))
       else pure tt) ;;;
      algoToCreateAK <-
        match attestationKeys !! Key opts with
        | None => return_ (None, Some (Errorf "key should be either AK or gceAK" []))
        | Some m => pure m
        end ;;
      let createFunc : option KeyFunc := algoToCreateAK !! KeyAlgo opts in
      attestationKey <-
        match createFunc with
        | None => panic                      (* the call of a nil function value *)
        | Some f =>
            attKeyErr <- call (Call_createFunc f) (run_createFunc w f) ;;
            match attKeyErr with
            | Some _ =>
                return_ (None, Some (Errorf "failed to create attestation key: %v" [ArgError err]))
            | None => pure f
            end
        end ;;
      defer (Call_Key_Close attestationKey) (
        let attestOpts := {| ao_Nonce := Nonce opts; TCGEventLog := [];
                             ao_TEEDevice := None; TEENonce := [] |} in
        attestOpts <-
          (if String.eqb (TeeTechnology opts) SevSnp then
             err <- call Call_CreateSevSnpQuoteProvider (client_CreateSevSnpQuoteProvider w) ;;
             match err with
             | Some err =>
                 return_ (None, Some (Errorf "failed to open %s device: %v"
                                             [ArgString SevSnp; ArgError (Some err)]))
             | None =>
                 pure {| ao_Nonce := ao_Nonce attestOpts; TCGEventLog := TCGEventLog attestOpts;
                         ao_TEEDevice := Some SevSnpQuoteProvider; TEENonce := TeeNonce opts |}
             end
           else if String.eqb (TeeTechnology opts) Tdx then
             err <- call Call_CreateTdxQuoteProvider (client_CreateTdxQuoteProvider w) ;;
             match err with
             | Some err =>
                 return_ (None, Some (Errorf "failed to create %s quote provider: %v"
                                             [ArgString Tdx; ArgError (Some err)]))
             | None =>
                 pure {| ao_Nonce := ao_Nonce attestOpts; TCGEventLog := TCGEventLog attestOpts;
                         ao_TEEDevice := Some TdxQuoteProvider; TEENonce := TeeNonce opts |}
             end
           else if String.eqb (TeeTechnology opts) "" then
             if negb (length (TeeNonce opts) =? 0)%nat then
               return_ (None, Some (Errorf
                 "use of TeeNonce requires specifying TEE hardware type with TeeTechnology" []))
             else pure attestOpts
           else
             return_ (None, Some (Errorf
               "tee-technology should be either empty or should have values %s or %s"
               [ArgString SevSnp; ArgString Tdx]))) ;;
        r <- call Call_GetEventLog (client_GetEventLog w) ;;
        attestOpts <-
          match r with
          | inr err =>
              return_ (None, Some (Errorf "failed to retrieve TCG Event Log: %w" [ArgError (Some err)]))
          | inl log =>
              pure {| ao_Nonce := ao_Nonce attestOpts; TCGEventLog := log;
                      ao_TEEDevice := ao_TEEDevice attestOpts; TEENonce := TEENonce attestOpts |}
          end ;;
        r <- call (Call_Key_Attest attestationKey attestOpts) (Key_Attest w attestationKey attestOpts) ;;
        attestation <-
          match r with
          | inr err =>
              return_ (None, Some (Errorf "failed to collect attestation report : %v"
                                          [ArgError (Some err)]))
          | inl a => pure a
          end ;;
        attestation <-
          (if String.eqb (Key opts) "gceAK" then
             r <- invoke (getInstanceInfoFromMetadata w) ;;
             match r with
             | (_, Some err) => return_ (None, Some err)
             | (instanceInfo, None) =>
                 pure {| AkPub := AkPub attestation; Quotes := Quotes attestation;
                         EventLog := EventLog attestation; InstanceInfo := instanceInfo;
                         att_TeeAttestation := att_TeeAttestation attestation |}
             end
           else pure attestation) ;;
        if String.eqb (Format opts) "binarypb" then
          r <- call (Call_proto_Marshal attestation) (proto_Marshal w attestation) ;;
          match r with
          | inr _ =>
              return_ (None, Some (Errorf "failed to marshal attestation proto: %v"
                                          [ArgAttestation attestation]))
          | inl out => return_ (Some out, None)
          end
        else
          out <- call (Call_prototext_Format attestation) (marshalOptions_Format w attestation) ;;
          return_ (Some out, None)))
    end)%go.

(** [GetAttestation] (attestation.go, 153-171). *)
Definition GetAttestation (w : Producer) (opts : AttestOptions)
  : M (option Attestation * option error) :=
  func (
    r <- invoke (Attest w opts) ;;
    match r with
    | (_, Some err) => return_ (None, Some err)
    | (attestBytes, None) =>
        let attestBytes := default [] attestBytes in
        if String.eqb (Format opts) "binarypb" then
          r <- call (Call_proto_Unmarshal attestBytes) (attest_proto_Unmarshal w attestBytes) ;;
          match r with
          | inr err => return_ (None, Some (Errorf "failed to unmarshal attestation proto: %v"
                                                   [ArgError (Some err)]))
          | inl a => return_ (Some a, None)
          end
        else
          r <- call (Call_prototext_Unmarshal attestBytes) (prototext_Unmarshal w attestBytes) ;;
          match r with
          | inr err => return_ (None, Some (Errorf "failed to unmarshal attestation proto: %v"
                                                   [ArgError (Some err)]))
          | inl a => return_ (Some a, None)
          end
    end)%go.

(** ** The error taxonomy of the specification

    The code has no error types, only messages.  The six categories of the
    specification are read onto the messages each function can return. *)
Inductive ErrorKind : Type :=
| InvalidArgument
| DeviceError
| DecodeError
| VerificationError
| TypeMismatch
| UnsupportedTechnology.

Definition one_of (s : string) (l : list string) : bool :=
  existsb (String.eqb s) l.

(** The errors of [Attest]: bad format, key type, technology string and a
    TeeNonce without technology are argument errors; the failures to open
    the device, derive the key, open a quote provider or read the event log
    are device errors.  The other errors of [Attest] (quote collection,
    metadata, marshalling) are in none of the categories. *)
Definition AttestErrorKind (e : error) : option ErrorKind :=
  match e with
  | Errorf format _ =>
      if one_of format
           ["format should be either binarypb or textproto";
            "key should be either AK or gceAK";
            "use of TeeNonce requires specifying TEE hardware type with TeeTechnology";
            "tee-technology should be either empty or should have values %s or %s"]
      then Some InvalidArgument
      else if one_of format
           ["failed to open TPM: %v";
            "failed to create attestation key: %v";
            "failed to open %s device: %v";
            "failed to create %s quote provider: %v";
            "failed to retrieve TCG Event Log: %w"]
      then Some DeviceError
      else None
  | ExternalError _ => None
  end.

(** The errors of [VerifyAttestation]: the two wrapped verification
    failures, the wrapped failure of [parseTEEAttestation], and the decoding
    failures (of the bytes, and of the public key, which is returned as the
    library made it).  No error of the function is about an unsupported
    technology. *)
Definition VerifyErrorKind (e : error) : ErrorKind :=
  match e with
  | Errorf format _ =>
      if one_of format ["verifying TPM attestation: %w"; "verifying TEE attestation: %w"]
      then VerificationError
      else if String.eqb format "failed to parse machineState from TEE attestation: %w"
      then TypeMismatch
      else DecodeError
  | ExternalError _ => DecodeError
  end.

(** ** Stand-ins for the libraries, to run the functions on *)

(** A verifier whose decoders answer with the record [att], whose base
    verification answers with a platform of technology [tech], and whose
    two evidence verifiers pass or fail as the two flags say. *)
Definition stub_verifier (att : Attestation) (base_ok : bool) (tech : GCEConfidentialTechnology)
    (tdx_ok snp_ok : bool) : Verifier :=
  {| proto_Unmarshal := fun _ => inl att;
     unmarshalOptions_Unmarshal := fun _ => inl att;
     tpm2_DecodePublic := fun b => inl b;
     Public_Key := fun b => inl b;
     server_VerifyAttestation := fun _ _ =>
       if base_ok then
         inl {| Platform := Some {| Firmware := []; Technology := tech |};
                RawEvents := []; ms_TeeAttestation := None |}
       else inr (ExternalError "quote: nonce mismatch");
     tv_DefaultOptions := [];
     tdxDefaultValidateOpts := fun n => n;
     sevSnpDefaultValidateOpts := fun n => n;
     verifyTdxAttestation := fun _ _ =>
       if tdx_ok then None else Some (ExternalError "tdx: report data mismatch");
     verifySevSnpAttestation := fun _ _ =>
       if snp_ok then None else Some (ExternalError "snp: report data mismatch") |}.

Definition record_with (tee : option isAttestation_TeeAttestation) : Attestation :=
  {| AkPub := [Byte.x01]; Quotes := []; EventLog := []; InstanceInfo := None;
     att_TeeAttestation := tee |}.

(** A producer whose device opens or not, whose key derivation answers
    with [key_err], and whose other calls succeed. *)
Definition stub_producer (tpm_ok : bool) (key_err : option error) : Producer :=
  {| tpm2_OpenTPM := if tpm_ok then None else Some (ExternalError "open /dev/tpmrm0: no such file");
     run_createFunc := fun _ => key_err;
     client_CreateSevSnpQuoteProvider := None;
     client_CreateTdxQuoteProvider := None;
     client_GetEventLog := inl [];
     Key_Attest := fun _ o =>
       inl {| AkPub := []; Quotes := ao_Nonce o; EventLog := TCGEventLog o; InstanceInfo := None;
              att_TeeAttestation :=
                match ao_TEEDevice o with
                | Some SevSnpQuoteProvider => Some (Attestation_SevSnpAttestation (TEENonce o))
                | Some TdxQuoteProvider => Some (Attestation_TdxAttestation (TEENonce o))
                | None => None
                end |};
     metadata_ProjectID := inl "p";
     metadata_NumericProjectID := inl "1";
     metadata_Zone := inl "z";
     metadata_InstanceID := inl "2";
     metadata_InstanceName := inl "i";
     strconv_ParseUint := fun s => inl (Z.of_nat (String.length s));
     proto_Marshal := fun a => inl (Quotes a);
     marshalOptions_Format := fun a => Quotes a;
     attest_proto_Unmarshal := fun b => inl (record_with None);
     prototext_Unmarshal := fun b => inl (record_with None) |}.

(** ** The verifier, stage by stage *)

(** The first stage of [VerifyAttestation]: the decoder is chosen by
    [format], and its error is wrapped. *)
Definition deserialize (w : Verifier) (format : string) (b : bytes) : Attestation + error :=
  if String.eqb format "binarypb" then
    match proto_Unmarshal w b with
    | inl a => inl a
    | inr err => inr (Errorf "fail to unmarshal attestation report: %v" [ArgError (Some err)])
    end
  else if String.eqb format "textproto" then
    match unmarshalOptions_Unmarshal w b with
    | inl a => inl a
    | inr err => inr (Errorf "fail to unmarshal attestation report: %v" [ArgError (Some err)])
    end
  else inr (Errorf "format should be either binarypb or textproto" []).

Definition deserialize_trace (format : string) (b : bytes) : list event :=
  if String.eqb format "binarypb" then [Call_proto_Unmarshal b]
  else if String.eqb format "textproto" then [Call_unmarshalOptions_Unmarshal b]
  else [].

(** The record [att] was decoded from the bytes, its public key was
    decoded, and base quote verification answered with the state [ms]. *)
Definition passes_base (w : Verifier) (b : bytes) (format : string) (nonce : bytes)
    (att : Attestation) (ms : MachineState) : Prop :=
  deserialize w format b = inl att /\
  exists pub cryptoPub,
    tpm2_DecodePublic w (AkPub att) = inl pub /\
    Public_Key w pub = inl cryptoPub /\
    server_VerifyAttestation w att {| vo_Nonce := nonce; TrustedAKs := [cryptoPub] |} = inl ms.

(** The nonce-binding policy in the words of the specification: the TEE
    nonce when it is not empty, the TPM nonce otherwise. *)
Definition tee_nonce (nonce teeNonce : bytes) : bytes :=
  match teeNonce with
  | [] => nonce
  | _ :: _ => teeNonce
  end.

Definition tdx_opts (w : Verifier) (n : bytes) : verifyTdxOpts :=
  {| tdx_Validation := tdxDefaultValidateOpts w n; tdx_Verification := tv_DefaultOptions w |}.

Definition snp_opts (w : Verifier) (n : bytes) : verifySnpOpts :=
  {| snp_Validation := sevSnpDefaultValidateOpts w n; snp_Verification := sv_Options_zero |}.

(** The calls of the TEE layer that a record's evidence leads to, and the
    answer of the verifier called. *)
Definition tee_calls (w : Verifier) (tee : option isAttestation_TeeAttestation) (n : bytes)
  : list event :=
  match tee with
  | None => []
  | Some (Attestation_TdxAttestation q) =>
      [Call_tdxDefaultValidateOpts n; Call_verifyTdxAttestation q (tdx_opts w n)]
  | Some (Attestation_SevSnpAttestation r) =>
      [Call_sevSnpDefaultValidateOpts n; Call_verifySevSnpAttestation r (snp_opts w n)]
  end.

Definition tee_answer (w : Verifier) (tee : option isAttestation_TeeAttestation) (n : bytes)
  : option error :=
  match tee with
  | None => None
  | Some (Attestation_TdxAttestation q) => verifyTdxAttestation w q (tdx_opts w n)
  | Some (Attestation_SevSnpAttestation r) => verifySevSnpAttestation w r (snp_opts w n)
  end.

(** The events of the TEE layer in a trace. *)
Definition is_tee_call (e : event) : bool :=
  match e with
  | Call_tdxDefaultValidateOpts _ | Call_sevSnpDefaultValidateOpts _
  | Call_verifyTdxAttestation _ _ | Call_verifySevSnpAttestation _ _ => true
  | _ => false
  end.

Definition is_tee_verifier (e : event) : bool :=
  match e with
  | Call_verifyTdxAttestation _ _ | Call_verifySevSnpAttestation _ _ => true
  | _ => false
  end.

(** Does the evidence slot hold the variant of the technology? *)
Definition slot_matches (tech : GCEConfidentialTechnology)
    (tee : option isAttestation_TeeAttestation) : bool :=
  match tee with
  | Some (Attestation_SevSnpAttestation _) => tech =? GCEConfidentialTechnology_AMD_SEV_SNP
  | Some (Attestation_TdxAttestation _) => tech =? GCEConfidentialTechnology_INTEL_TDX
  | None => false
  end.

(** The slot of the machine state that mirrors a slot of the record. *)
Definition mirror (tee : option isAttestation_TeeAttestation)
  : option isMachineState_TeeAttestation :=
  match tee with
  | Some (Attestation_SevSnpAttestation r) => Some (MachineState_SevSnpAttestation r)
  | Some (Attestation_TdxAttestation q) => Some (MachineState_TdxAttestation q)
  | None => None
  end.

Definition with_tee (ms : MachineState) (t : option isMachineState_TeeAttestation) : MachineState :=
  {| Platform := Platform ms; RawEvents := RawEvents ms; ms_TeeAttestation := t |}.

(** What [VerifyAttestation] does once base verification has passed. *)
Definition after_base (w : Verifier) (att : Attestation) (ms : MachineState)
    (nonce teeNonce : bytes) : res (option MachineState * option error) :=
  match tee_answer w (att_TeeAttestation att) (tee_nonce nonce teeNonce) with
  | Some err => Done (None, Some (Errorf "verifying TEE attestation: %w" [ArgError (Some err)]))
  | None =>
      match Platform ms with
      | None => Panicked
      | Some p =>
          match parseTEEAttestation att (Technology p) with
          | (_, Some err) =>
              Done (None, Some (Errorf "failed to parse machineState from TEE attestation: %w"
                                       [ArgError (Some err)]))
          | (None, None) => Panicked
          | (Some teeMS, None) => Done (Some (with_tee ms (ms_TeeAttestation teeMS)), None)
          end
      end
  end.

(** One of the stages of [VerifyAttestation] fails: deserialization, the
    two steps of the public-key decoding, base quote verification, the
    verification of the TEE evidence, the matching of the evidence with the
    verified technology. *)
Inductive stage_fails (w : Verifier) (b : bytes) (format : string) (nonce teeNonce : bytes)
  : Prop :=
| deserialization_fails (e : error) :
    deserialize w format b = inr e ->
    stage_fails w b format nonce teeNonce
| public_key_decode_fails (att : Attestation) (e : error) :
    deserialize w format b = inl att ->
    tpm2_DecodePublic w (AkPub att) = inr e ->
    stage_fails w b format nonce teeNonce
| public_key_fails (att : Attestation) (pub : bytes) (e : error) :
    deserialize w format b = inl att ->
    tpm2_DecodePublic w (AkPub att) = inl pub ->
    Public_Key w pub = inr e ->
    stage_fails w b format nonce teeNonce
| base_quote_fails (att : Attestation) (pub : bytes) (cryptoPub : PublicKey) (e : error) :
    deserialize w format b = inl att ->
    tpm2_DecodePublic w (AkPub att) = inl pub ->
    Public_Key w pub = inl cryptoPub ->
    server_VerifyAttestation w att {| vo_Nonce := nonce; TrustedAKs := [cryptoPub] |} = inr e ->
    stage_fails w b format nonce teeNonce
| tee_evidence_fails (att : Attestation) (ms : MachineState) (e : error) :
    passes_base w b format nonce att ms ->
    tee_answer w (att_TeeAttestation att) (tee_nonce nonce teeNonce) = Some e ->
    stage_fails w b format nonce teeNonce
| matching_fails (att : Attestation) (ms : MachineState) (p : PlatformState) (e : error) :
    passes_base w b format nonce att ms ->
    Platform ms = Some p ->
    snd (parseTEEAttestation att (Technology p)) = Some e ->
    stage_fails w b format nonce teeNonce.

(** The stages of [VerifyAttestation] before the TEE layer, as one
    function of the answers of the libraries. *)
Definition verify_stages (w : Verifier) (b : bytes) (format : string) (nonce teeNonce : bytes)
  : res (option MachineState * option error) :=
  match deserialize w format b with
  | inr e => Done (None, Some e)
  | inl att =>
      match tpm2_DecodePublic w (AkPub att) with
      | inr e => Done (None, Some e)
      | inl pub =>
          match Public_Key w pub with
          | inr e => Done (None, Some e)
          | inl cryptoPub =>
              match server_VerifyAttestation w att
                      {| vo_Nonce := nonce; TrustedAKs := [cryptoPub] |} with
              | inr e => Done (None, Some (Errorf "verifying TPM attestation: %w"
                                                  [ArgError (Some e)]))
              | inl ms => after_base w att ms nonce teeNonce
              end
          end
      end
  end.

(** ** Inputs to run the functions on *)

Definition nonce0 : bytes := [Byte.x0a].
Definition teeNonce0 : bytes := [Byte.x0b].
Definition quote0 : bytes := [Byte.x51].

(** The calls of [Attest] that reach hardware: the device open, the key
    derivation, the opening of a quote provider, the event-log read. *)
Definition touches_hardware (e : event) : bool :=
  match e with
  | Call_OpenTPM | Call_createFunc _ | Call_CreateSevSnpQuoteProvider
  | Call_CreateTdxQuoteProvider | Call_GetEventLog => true
  | _ => false
  end.

Definition opens_evidence_provider (e : event) : bool :=
  match e with
  | Call_CreateSevSnpQuoteProvider | Call_CreateTdxQuoteProvider => true
  | _ => false
  end.

(** [tpm2.AlgSHA256], an algorithm that is no key algorithm. *)
Definition AlgSHA256 : Algorithm := 0x000B.

Definition opts_unknown_algo : AttestOptions :=
  {| Key := "AK"; KeyAlgo := AlgSHA256; Nonce := nonce0; TeeTechnology := "";
     TeeNonce := []; Format := "binarypb" |}.

Definition opts_bad_format : AttestOptions :=
  {| Key := "AK"; KeyAlgo := AlgRSA; Nonce := nonce0; TeeTechnology := "";
     TeeNonce := []; Format := "json" |}.

Definition opts_stray_TeeNonce : AttestOptions :=
  {| Key := "AK"; KeyAlgo := AlgRSA; Nonce := nonce0; TeeTechnology := "";
     TeeNonce := teeNonce0; Format := "binarypb" |}.


(** ** Proof steps

    Unfolding of the operations of the monad. *)
Ltac go_unfold :=
  unfold func, bind, call, return_, pure, panic, invoke, defer; cbn [fst snd app].

(** * Further definitions *)

(** ** Case analysis over the paths of a function

    [case_innermost] splits on a scrutinee that contains no other case
    analysis, that is on the answer of the next call on the path. *)
Ltac free_of_cases scrutinee :=
  lazymatch scrutinee with
  | context [match _ with _ => _ end] => fail
  | _ => idtac
  end.

Ltac case_innermost :=
  match goal with
  | |- context [match ?scrutinee with _ => _ end] =>
      free_of_cases scrutinee; destruct scrutinee eqn:?
  end.

Ltac paths := repeat (case_innermost; cbn [fst snd app negb orb]).

(** The calls of [VerifyAttestation], stage by stage: each stage adds its
    call and the next stage follows only when it passed. *)
Definition verify_trace (w : Verifier) (b : bytes) (format : string) (nonce teeNonce : bytes)
  : list event :=
  deserialize_trace format b ++
  match deserialize w format b with
  | inr _ => []
  | inl att =>
      Call_DecodePublic (AkPub att) ::
      match tpm2_DecodePublic w (AkPub att) with
      | inr _ => []
      | inl pub =>
          Call_Public_Key ::
          match Public_Key w pub with
          | inr _ => []
          | inl cryptoPub =>
              Call_server_VerifyAttestation att
                {| vo_Nonce := nonce; TrustedAKs := [cryptoPub] |} ::
              match server_VerifyAttestation w att
                      {| vo_Nonce := nonce; TrustedAKs := [cryptoPub] |} with
              | inr _ => []
              | inl _ => tee_calls w (att_TeeAttestation att) (tee_nonce nonce teeNonce)
              end
          end
      end
  end.

(** A verifier as [stub_verifier], whose base verification answers with a
    machine state that has no platform. *)
Definition verifier_without_platform (att : Attestation) : Verifier :=
  let w := stub_verifier att true GCEConfidentialTechnology_NONE true true in
  {| proto_Unmarshal := proto_Unmarshal w;
     unmarshalOptions_Unmarshal := unmarshalOptions_Unmarshal w;
     tpm2_DecodePublic := tpm2_DecodePublic w;
     Public_Key := Public_Key w;
     server_VerifyAttestation := fun _ _ => inl MachineState_zero;
     tv_DefaultOptions := tv_DefaultOptions w;
     tdxDefaultValidateOpts := tdxDefaultValidateOpts w;
     sevSnpDefaultValidateOpts := sevSnpDefaultValidateOpts w;
     verifyTdxAttestation := verifyTdxAttestation w;
     verifySevSnpAttestation := verifySevSnpAttestation w |}.

(** Case analysis on the membership of an event in a trace that is
    written out. *)
Ltac in_cases H :=
  cbn in H;
  repeat (destruct H as [H|H]; [try discriminate H; try (injection H as <-)|]);
  try contradiction.

(** The metadata server answered all five questions and the two numbers
    parsed: [info] is what the answers say. *)
Definition metadata_answers (w : Producer) (info : GCEInstanceInfo) : Prop :=
  exists projectNumber instanceID,
    metadata_ProjectID w = inl (ProjectId info) /\
    metadata_NumericProjectID w = inl projectNumber /\
    strconv_ParseUint w projectNumber = inl (ProjectNumber info) /\
    metadata_Zone w = inl (Zone info) /\
    metadata_InstanceID w = inl instanceID /\
    strconv_ParseUint w instanceID = inl (InstanceId info) /\
    metadata_InstanceName w = inl (InstanceName info).

Definition is_metadata_call (e : event) : bool :=
  match e with
  | Call_metadata _ | Call_ParseUint _ => true
  | _ => false
  end.

Definition is_serialization (e : event) : bool :=
  match e with
  | Call_proto_Marshal _ | Call_prototext_Format _ => true
  | _ => false
  end.

Definition opts_gce_tdx : AttestOptions :=
  {| Key := "gceAK"; KeyAlgo := AlgECC; Nonce := nonce0; TeeTechnology := "tdx";
     TeeNonce := teeNonce0; Format := "textproto" |}.

(** ** The foreign-call bridge: [cmd/ffi/main.go] *)

(** What the bridge calls and does not define: the text of an error
    ([err.Error()]) and the three JSON encoders.  [json_Marshal_errorResponse]
    is [json.Marshal] on the map with the keys "error" (the text given) and
    "success" (false).  The state encoders take the pointer they are given,
    which may be nil. *)
Record Bridge : Type := mkBridge {
  err_Error : error -> string;
  json_Marshal_errorResponse : string -> bytes + error;
  protojson_Marshal : option MachineState -> bytes + error;
  json_Marshal : option MachineState -> bytes + error
}.

(** The conversion of a Go [int] to [C.int], 32 bits wide and signed. *)
Definition C_int (n : Z) : Z := (n + 2 ^ 31) mod 2 ^ 32 - 2 ^ 31.

(** [jsonBytes, _ := json.Marshal(...)]: the error is dropped, and the
    bytes are nil when there is one. *)
Definition drop_error (r : bytes + error) : bytes :=
  match r with
  | inl b => b
  | inr _ => []
  end.

(** [VerifyAttestationFFI] (cmd/ffi/main.go), from line 26 on: from the Go
    values the C arguments were converted to, up to the bytes and the status
    that are handed back ([C.CString] copies the bytes).  The conversions of
    lines 21-24 come before it and are not part of it: they read the caller's
    memory, and [C.GoBytes] panics on a negative length.  [fmt.Sprintf] on a
    format and two errors has the text of the error [fmt.Errorf] makes of
    them. *)
Definition VerifyAttestationFFI (w : Verifier) (j : Bridge) (attestationBytes : bytes)
    (format : string) (nonceBytes teeNonceBytes : bytes) : M (bytes * Z) :=
  func (
    r <- invoke (VerifyAttestation w attestationBytes format nonceBytes teeNonceBytes) ;;
    match r with
    | (_, Some err) =>
        let jsonBytes := drop_error (json_Marshal_errorResponse j (err_Error j err)) in
        return_ (jsonBytes, C_int (-1))
    | (machineState, None) =>
        match protojson_Marshal j machineState with
        | inr err =>
            match json_Marshal j machineState with
            | inr err2 =>
                let text := err_Error j
                  (Errorf "Error serializing result: protojson: %v, json: %v"
                          [ArgError (Some err); ArgError (Some err2)]) in
                let jsonBytes := drop_error (json_Marshal_errorResponse j text) in
                return_ (jsonBytes, C_int (-1))
            | inl jsonBytes2 =>
                return_ (jsonBytes2, C_int (Z.of_nat (length jsonBytes2)))
            end
        | inl jsonBytes =>
            return_ (jsonBytes, C_int (Z.of_nat (length jsonBytes)))
        end
    end)%go.

(** A bridge whose encoders answer with fixed bytes. *)
Definition stub_bridge (proto_ok : bool) : Bridge :=
  {| err_Error := fun _ => "error";
     json_Marshal_errorResponse := fun _ => inl [Byte.x7b; Byte.x7d];
     protojson_Marshal := fun _ =>
       if proto_ok then inl [Byte.x7b; Byte.x31; Byte.x7d]
       else inr (ExternalError "protojson: invalid UTF-8");
     json_Marshal := fun _ => inl [Byte.x7b; Byte.x32; Byte.x32; Byte.x7d] |}.

(** The paths of [Attest], with the metadata fetch unfolded in it. *)
Ltac attest_paths :=
  unfold Attest, getInstanceInfoFromMetadata, result_of, trace_of; go_unfold; paths.

(** The tests on strings met on a path, turned into equations. *)
Ltac eqb_hyps :=
  repeat match goal with
         | H : String.eqb ?a ?b = _ |- context [String.eqb ?a ?b] => rewrite H
         end;
  repeat match goal with
         | H : String.eqb _ _ = true |- _ => apply String.eqb_eq in H
         | H : String.eqb _ _ = false |- _ => apply String.eqb_neq in H
         end.


(** ** The command line: [main] *)












(** * Properties *)


Lemma tee_nonce_length (nonce teeNonce : bytes) :
  tee_nonce nonce teeNonce = if negb (length teeNonce =? 0)%nat then teeNonce else nonce.
Proof. destruct teeNonce; reflexivity. Qed.

Lemma verifyGceTechnology_eq (w : Verifier) (att : Attestation) (nonce teeNonce : bytes) :
  verifyGceTechnology w att nonce teeNonce =
  (tee_calls w (att_TeeAttestation att) (tee_nonce nonce teeNonce),
   Done (tee_answer w (att_TeeAttestation att) (tee_nonce nonce teeNonce))).
Proof.
  unfold verifyGceTechnology, GetTeeAttestation.
  rewrite tee_nonce_length.
  destruct (att_TeeAttestation att) as [[r|q]|]; [| |reflexivity];
    destruct (negb (length teeNonce =? 0)%nat); reflexivity.
Qed.

Lemma VerifyAttestation_after_base (w : Verifier) (b : bytes) (format : string)
    (nonce teeNonce : bytes) (att : Attestation) (ms : MachineState) :
  passes_base w b format nonce att ms ->
  exists cryptoPub,
    VerifyAttestation w b format nonce teeNonce =
    (deserialize_trace format b ++
     [Call_DecodePublic (AkPub att); Call_Public_Key;
      Call_server_VerifyAttestation att {| vo_Nonce := nonce; TrustedAKs := [cryptoPub] |}] ++
     tee_calls w (att_TeeAttestation att) (tee_nonce nonce teeNonce),
     after_base w att ms nonce teeNonce).
Proof.
  intros [Hd (pub & k & Hp & Hk & Hs)]. exists k.
  unfold VerifyAttestation, after_base, deserialize, deserialize_trace in *.
  destruct (String.eqb format "binarypb").
  - destruct (proto_Unmarshal w b) as [a|e]; [|discriminate].
    injection Hd as ->. go_unfold. rewrite Hp, Hk, Hs.
    cbn -[verifyGceTechnology parseTEEAttestation]. rewrite verifyGceTechnology_eq.
    destruct (tee_answer w _ _); [rewrite ?app_nil_r; reflexivity|].
    unfold GetPlatform, with_tee. destruct (Platform ms) as [p|];
      [|rewrite app_nil_r; reflexivity].
    destruct (parseTEEAttestation att (Technology p)) as [[t|] [e|]];
      rewrite ?app_nil_r; reflexivity.
  - destruct (String.eqb format "textproto"); [|discriminate].
    destruct (unmarshalOptions_Unmarshal w b) as [a|e]; [|discriminate].
    injection Hd as ->. go_unfold. rewrite Hp, Hk, Hs.
    cbn -[verifyGceTechnology parseTEEAttestation]. rewrite verifyGceTechnology_eq.
    destruct (tee_answer w _ _); [rewrite ?app_nil_r; reflexivity|].
    unfold GetPlatform, with_tee. destruct (Platform ms) as [p|];
      [|rewrite app_nil_r; reflexivity].
    destruct (parseTEEAttestation att (Technology p)) as [[t|] [e|]];
      rewrite ?app_nil_r; reflexivity.
Qed.

Lemma VerifyAttestation_result (w : Verifier) (b : bytes) (format : string)
    (nonce teeNonce : bytes) :
  result_of (VerifyAttestation w b format nonce teeNonce) = verify_stages w b format nonce teeNonce.
Proof.
  unfold verify_stages.
  destruct (deserialize w format b) as [att|e] eqn:Hd.
  - destruct (tpm2_DecodePublic w (AkPub att)) as [pub|e] eqn:Hp.
    + destruct (Public_Key w pub) as [k|e] eqn:Hk.
      * destruct (server_VerifyAttestation w att {| vo_Nonce := nonce; TrustedAKs := [k] |})
          as [ms|e] eqn:Hs.
        -- destruct (VerifyAttestation_after_base w b format nonce teeNonce att ms) as [k' H].
           { split; [exact Hd|]. exists pub, k. auto. }
           rewrite H. reflexivity.
        -- unfold VerifyAttestation, deserialize in *.
           destruct (String.eqb format "binarypb");
             [destruct (proto_Unmarshal w b); [|discriminate]
             |destruct (String.eqb format "textproto"); [|discriminate];
              destruct (unmarshalOptions_Unmarshal w b); [|discriminate]];
             injection Hd as ->; go_unfold; rewrite Hp, Hk, Hs; reflexivity.
      * unfold VerifyAttestation, deserialize in *.
        destruct (String.eqb format "binarypb");
          [destruct (proto_Unmarshal w b); [|discriminate]
          |destruct (String.eqb format "textproto"); [|discriminate];
           destruct (unmarshalOptions_Unmarshal w b); [|discriminate]];
          injection Hd as ->; go_unfold; rewrite Hp, Hk; reflexivity.
    + unfold VerifyAttestation, deserialize in *.
      destruct (String.eqb format "binarypb");
        [destruct (proto_Unmarshal w b); [|discriminate]
        |destruct (String.eqb format "textproto"); [|discriminate];
         destruct (unmarshalOptions_Unmarshal w b); [|discriminate]];
        injection Hd as ->; go_unfold; rewrite Hp; reflexivity.
  - unfold VerifyAttestation, deserialize in *.
    destruct (String.eqb format "binarypb");
      [destruct (proto_Unmarshal w b); [discriminate|]
      |destruct (String.eqb format "textproto");
       [destruct (unmarshalOptions_Unmarshal w b); [discriminate|]|]];
      injection Hd as <-; reflexivity.
Qed.

Lemma after_base_shape (w : Verifier) (att : Attestation) (ms : MachineState)
    (nonce teeNonce : bytes) (r : option MachineState * option error) :
  after_base w att ms nonce teeNonce = Done r ->
  (exists e, r = (None, Some e)) \/ (exists s, r = (Some s, None)).
Proof.
  unfold after_base.
  destruct (tee_answer w _ _); [intros [= <-]; eauto|].
  destruct (Platform ms) as [p|]; [|discriminate].
  destruct (parseTEEAttestation att (Technology p)) as [[t|] [e|]];
    try discriminate; intros [= <-]; eauto.
Qed.

Lemma verify_stages_shape (w : Verifier) (b : bytes) (format : string)
    (nonce teeNonce : bytes) (r : option MachineState * option error) :
  verify_stages w b format nonce teeNonce = Done r ->
  (exists e, r = (None, Some e)) \/ (exists s, r = (Some s, None)).
Proof.
  unfold verify_stages.
  destruct (deserialize w format b) as [att|e]; [|intros [= <-]; eauto].
  destruct (tpm2_DecodePublic w (AkPub att)) as [pub|e]; [|intros [= <-]; eauto].
  destruct (Public_Key w pub) as [k|e]; [|intros [= <-]; eauto].
  destruct (server_VerifyAttestation w att _) as [ms|e]; [|intros [= <-]; eauto].
  apply after_base_shape.
Qed.

Lemma passes_base_stages (w : Verifier) (b : bytes) (format : string)
    (nonce teeNonce : bytes) (att : Attestation) (ms : MachineState) :
  passes_base w b format nonce att ms ->
  result_of (VerifyAttestation w b format nonce teeNonce) = after_base w att ms nonce teeNonce.
Proof.
  intros H. destruct (VerifyAttestation_after_base w b format nonce teeNonce att ms H) as [k ->].
  reflexivity.
Qed.

Lemma filter_deserialize_trace (f : event -> bool) (format : string) (b : bytes) :
  f (Call_proto_Unmarshal b) = false -> f (Call_unmarshalOptions_Unmarshal b) = false ->
  List.filter f (deserialize_trace format b) = [].
Proof.
  intros H1 H2. unfold deserialize_trace.
  destruct (String.eqb format "binarypb"); [cbn; rewrite H1; reflexivity|].
  destruct (String.eqb format "textproto"); [cbn; rewrite H2; reflexivity|reflexivity].
Qed.

Lemma parseTEEAttestation_other (att : Attestation) (tech : GCEConfidentialTechnology) :
  tech <> GCEConfidentialTechnology_AMD_SEV_SNP ->
  tech <> GCEConfidentialTechnology_INTEL_TDX ->
  parseTEEAttestation att tech = (Some MachineState_zero, None).
Proof.
  intros H1 H2. unfold parseTEEAttestation.
  destruct (Z.eqb_spec tech GCEConfidentialTechnology_AMD_SEV_SNP); [contradiction|].
  destruct (Z.eqb_spec tech GCEConfidentialTechnology_INTEL_TDX); [contradiction|].
  reflexivity.
Qed.

(** On the two technologies with evidence, [parseTEEAttestation] copies the
    slot when it holds the matching variant and fails otherwise. *)
Lemma parseTEEAttestation_tee (att : Attestation) (tech : GCEConfidentialTechnology) :
  tech = GCEConfidentialTechnology_AMD_SEV_SNP \/ tech = GCEConfidentialTechnology_INTEL_TDX ->
  if slot_matches tech (att_TeeAttestation att)
  then parseTEEAttestation att tech =
       (Some (with_tee MachineState_zero (mirror (att_TeeAttestation att))), None)
  else exists e, parseTEEAttestation att tech = (None, Some e).
Proof.
  intros [-> | ->]; unfold parseTEEAttestation, slot_matches, GetTeeAttestation;
    destruct (att_TeeAttestation att) as [[r|q]|]; cbn; eauto.
Qed.

(** ** The producer: the key table and the first steps of [Attest] *)

Lemma attestationKeys_recognized (key : string) (m : gmap Z KeyFunc) :
  attestationKeys !! key = Some m ->
  (key = "AK" /\ m = {[ AlgRSA := client_AttestationKeyRSA; AlgECC := client_AttestationKeyECC ]}) \/
  (key = "gceAK" /\
   m = {[ AlgRSA := client_GceAttestationKeyRSA; AlgECC := client_GceAttestationKeyECC ]}).
Proof.
  unfold attestationKeys. intros H.
  destruct (decide (key = "AK")) as [->|N1].
  - rewrite lookup_insert_eq in H. injection H as <-. left. auto.
  - rewrite lookup_insert_ne in H by congruence.
    destruct (decide (key = "gceAK")) as [->|N2].
    + rewrite lookup_singleton_eq in H. injection H as <-. right. auto.
    + rewrite lookup_singleton_ne in H by congruence. discriminate.
Qed.

Lemma attestationKeys_AK :
  attestationKeys !! "AK" =
  Some {[ AlgRSA := client_AttestationKeyRSA; AlgECC := client_AttestationKeyECC ]}.
Proof. unfold attestationKeys. apply lookup_insert_eq. Qed.

Lemma attestationKeys_gceAK :
  attestationKeys !! "gceAK" =
  Some {[ AlgRSA := client_GceAttestationKeyRSA; AlgECC := client_GceAttestationKeyECC ]}.
Proof.
  unfold attestationKeys. rewrite lookup_insert_ne by discriminate.
  apply lookup_singleton_eq.
Qed.

(** No row of the table has an entry for an algorithm other than RSA and
    ECC: the lookup yields the nil function. *)
Lemma createFunc_absent (key : string) (m : gmap Z KeyFunc) (algo : Algorithm) :
  attestationKeys !! key = Some m ->
  algo <> AlgRSA -> algo <> AlgECC ->
  m !! algo = None.
Proof.
  intros H N1 N2.
  destruct (attestationKeys_recognized key m H) as [[_ ->] | [_ ->]];
    rewrite lookup_insert_ne by congruence; apply lookup_singleton_ne; congruence.
Qed.

Lemma valid_format_test (format : string) :
  format = "binarypb" \/ format = "textproto" ->
  negb (String.eqb format "binarypb" || String.eqb format "textproto") = false.
Proof. intros [-> | ->]; reflexivity. Qed.

Lemma invalid_format_test (format : string) :
  format <> "binarypb" -> format <> "textproto" ->
  negb (String.eqb format "binarypb" || String.eqb format "textproto") = true.
Proof.
  intros N1 N2. apply String.eqb_neq in N1, N2. rewrite N1, N2. reflexivity.
Qed.

(** [Attest] up to the derivation of the key: every way out before the
    [switch], and the panic. *)
Lemma Attest_open_fails (w : Producer) (opts : AttestOptions) (err : error) :
  tpm2_OpenTPM w = Some err ->
  Attest w opts =
  ([Call_OpenTPM], Done (None, Some (Errorf "failed to open TPM: %v" [ArgError (Some err)]))).
Proof. intros H. unfold Attest. go_unfold. rewrite H. reflexivity. Qed.

Lemma Attest_bad_format (w : Producer) (opts : AttestOptions) :
  tpm2_OpenTPM w = None ->
  Format opts <> "binarypb" -> Format opts <> "textproto" ->
  Attest w opts =
  ([Call_OpenTPM; Call_rwc_Close],
   Done (None, Some (Errorf "format should be either binarypb or textproto" []))).
Proof.
  intros H N1 N2. unfold Attest. go_unfold. rewrite H.
  rewrite (invalid_format_test _ N1 N2). reflexivity.
Qed.

Lemma Attest_bad_key (w : Producer) (opts : AttestOptions) :
  tpm2_OpenTPM w = None ->
  Format opts = "binarypb" \/ Format opts = "textproto" ->
  attestationKeys !! Key opts = None ->
  Attest w opts =
  ([Call_OpenTPM; Call_rwc_Close],
   Done (None, Some (Errorf "key should be either AK or gceAK" []))).
Proof.
  intros H F K. unfold Attest. go_unfold. rewrite H.
  rewrite (valid_format_test _ F), K. reflexivity.
Qed.

Lemma Attest_nil_createFunc (w : Producer) (opts : AttestOptions) (m : gmap Z KeyFunc) :
  tpm2_OpenTPM w = None ->
  Format opts = "binarypb" \/ Format opts = "textproto" ->
  attestationKeys !! Key opts = Some m ->
  m !! KeyAlgo opts = None ->
  Attest w opts = ([Call_OpenTPM; Call_rwc_Close], Panicked).
Proof.
  intros H F K A. unfold Attest. go_unfold. rewrite H.
  rewrite (valid_format_test _ F), K. cbn. rewrite A. reflexivity.
Qed.

Lemma Attest_key_fails (w : Producer) (opts : AttestOptions) (m : gmap Z KeyFunc)
    (f : KeyFunc) (attKeyErr : error) :
  tpm2_OpenTPM w = None ->
  Format opts = "binarypb" \/ Format opts = "textproto" ->
  attestationKeys !! Key opts = Some m ->
  m !! KeyAlgo opts = Some f ->
  run_createFunc w f = Some attKeyErr ->
  Attest w opts =
  ([Call_OpenTPM; Call_createFunc f; Call_rwc_Close],
   Done (None, Some (Errorf "failed to create attestation key: %v" [ArgError None]))).
Proof.
  intros H F K A E. unfold Attest. go_unfold. rewrite H.
  rewrite (valid_format_test _ F), K. cbn. rewrite A, E. reflexivity.
Qed.

Lemma Attest_TeeNonce_without_technology (w : Producer) (opts : AttestOptions)
    (m : gmap Z KeyFunc) (f : KeyFunc) :
  tpm2_OpenTPM w = None ->
  Format opts = "binarypb" \/ Format opts = "textproto" ->
  attestationKeys !! Key opts = Some m ->
  m !! KeyAlgo opts = Some f ->
  run_createFunc w f = None ->
  TeeTechnology opts = "" ->
  TeeNonce opts <> [] ->
  Attest w opts =
  ([Call_OpenTPM; Call_createFunc f; Call_Key_Close f; Call_rwc_Close],
   Done (None, Some (Errorf
     "use of TeeNonce requires specifying TEE hardware type with TeeTechnology" []))).
Proof.
  intros H F K A E T N. unfold Attest. go_unfold. rewrite H.
  rewrite (valid_format_test _ F), K. cbn. rewrite A, E, T.
  destruct (TeeNonce opts); [contradiction|]. reflexivity.
Qed.

(** [GetAttestation] decodes what [Attest] returned with the decoder of the
    format [Attest] encoded it with. *)
Lemma GetAttestation_decodes_Attest_output (w : Producer) (opts : AttestOptions)
    (t : list event) (out : bytes) :
  Attest w opts = (t, Done (Some out, None)) ->
  GetAttestation w opts =
    if String.eqb (Format opts) "binarypb" then
      (t ++ [Call_proto_Unmarshal out],
       Done match attest_proto_Unmarshal w out with
            | inl a => (Some a, None)
            | inr err => (None, Some (Errorf "failed to unmarshal attestation proto: %v"
                                             [ArgError (Some err)]))
            end)
    else
      (t ++ [Call_prototext_Unmarshal out],
       Done match prototext_Unmarshal w out with
            | inl a => (Some a, None)
            | inr err => (None, Some (Errorf "failed to unmarshal attestation proto: %v"
                                             [ArgError (Some err)]))
            end).
Proof.
  intros H. unfold GetAttestation. rewrite H. go_unfold. cbn.
  destruct (String.eqb (Format opts) "binarypb").
  - destruct (attest_proto_Unmarshal w out); reflexivity.
  - destruct (prototext_Unmarshal w out); reflexivity.
Qed.

(** ** The claims about the verifier *)

(** C1 (as amended): for every record that passes base quote verification,
    the TEE-evidence verifier that runs is the one of the evidence variant
    the record holds (no evidence: none runs; a TDX quote: the TDX verifier;
    a SEV-SNP report: the SEV-SNP verifier), whatever technology the verified
    platform state records; a machine state is returned only if that
    verifier accepted the evidence, and the verified technology only decides
    which variant is copied into the machine state that is returned. *)
Theorem C1_verifier_chosen_by_record_evidence (w : Verifier) (b : bytes) (format : string)
    (nonce teeNonce : bytes) (att : Attestation) (ms : MachineState) :
  passes_base w b format nonce att ms ->
  List.filter is_tee_verifier (trace_of (VerifyAttestation w b format nonce teeNonce)) =
    match att_TeeAttestation att with
    | None => []
    | Some (Attestation_TdxAttestation q) =>
        [Call_verifyTdxAttestation q (tdx_opts w (tee_nonce nonce teeNonce))]
    | Some (Attestation_SevSnpAttestation r) =>
        [Call_verifySevSnpAttestation r (snp_opts w (tee_nonce nonce teeNonce))]
    end /\
  (forall s e, result_of (VerifyAttestation w b format nonce teeNonce) = Done (Some s, e) ->
     tee_answer w (att_TeeAttestation att) (tee_nonce nonce teeNonce) = None) /\
  forall p s, Platform ms = Some p ->
    result_of (VerifyAttestation w b format nonce teeNonce) = Done (Some s, None) ->
    ms_TeeAttestation s =
      if slot_matches (Technology p) (att_TeeAttestation att)
      then mirror (att_TeeAttestation att) else None.
Proof.
  intros H. split; [|split].
  2:{ intros s e. rewrite (passes_base_stages _ _ _ _ teeNonce _ _ H).
      unfold after_base. destruct (tee_answer w _ _); [discriminate|reflexivity]. }
  - destruct (VerifyAttestation_after_base w b format nonce teeNonce att ms H) as [k ->].
    unfold trace_of; cbn [fst]. rewrite !List.filter_app.
    rewrite filter_deserialize_trace by reflexivity.
    destruct (att_TeeAttestation att) as [[r|q]|]; reflexivity.
  - intros p s Hp. rewrite (passes_base_stages _ _ _ _ teeNonce _ _ H).
    unfold after_base. rewrite Hp.
    destruct (tee_answer w _ _); [discriminate|].
    destruct (Z.eq_dec (Technology p) GCEConfidentialTechnology_AMD_SEV_SNP) as [E|N1];
      [|destruct (Z.eq_dec (Technology p) GCEConfidentialTechnology_INTEL_TDX) as [E|N2]].
    + pose proof (parseTEEAttestation_tee att _ (or_introl E)) as P.
      destruct (slot_matches _ _); [rewrite P; intros [= <-]; reflexivity|].
      destruct P as [e ->]. discriminate.
    + pose proof (parseTEEAttestation_tee att _ (or_intror E)) as P.
      destruct (slot_matches _ _); [rewrite P; intros [= <-]; reflexivity|].
      destruct P as [e ->]. discriminate.
    + rewrite parseTEEAttestation_other by assumption. intros [= <-]. cbn.
      unfold slot_matches. destruct (att_TeeAttestation att) as [[r|q]|]; [| |reflexivity].
      * destruct (Z.eqb_spec (Technology p) GCEConfidentialTechnology_AMD_SEV_SNP);
          [contradiction|reflexivity].
      * destruct (Z.eqb_spec (Technology p) GCEConfidentialTechnology_INTEL_TDX);
          [contradiction|reflexivity].
Qed.

Lemma passes_base_stub (att : Attestation) (tech : GCEConfidentialTechnology)
    (tdx_ok snp_ok : bool) (b nonce : bytes) :
  passes_base (stub_verifier att true tech tdx_ok snp_ok) b "binarypb" nonce att
    {| Platform := Some {| Firmware := []; Technology := tech |};
       RawEvents := []; ms_TeeAttestation := None |}.
Proof. split; [reflexivity|]. exists (AkPub att), (AkPub att). auto. Qed.

Lemma C1_verifier_chosen_by_record_evidence_witness :
  let att := record_with (Some (Attestation_TdxAttestation quote0)) in
  let w := stub_verifier att true GCEConfidentialTechnology_INTEL_TDX true true in
  passes_base w [] "binarypb" nonce0 att
    {| Platform := Some {| Firmware := []; Technology := GCEConfidentialTechnology_INTEL_TDX |};
       RawEvents := []; ms_TeeAttestation := None |} /\
  List.filter is_tee_verifier (trace_of (VerifyAttestation w [] "binarypb" nonce0 [])) =
  [Call_verifyTdxAttestation quote0 {| tdx_Validation := nonce0; tdx_Verification := [] |}].
Proof.
  cbv zeta.
  assert (H : passes_base
                (stub_verifier (record_with (Some (Attestation_TdxAttestation quote0)))
                   true GCEConfidentialTechnology_INTEL_TDX true true)
                [] "binarypb" nonce0 (record_with (Some (Attestation_TdxAttestation quote0)))
                {| Platform := Some {| Firmware := [];
                                       Technology := GCEConfidentialTechnology_INTEL_TDX |};
                   RawEvents := []; ms_TeeAttestation := None |}).
  { split; [reflexivity|]. exists [Byte.x01], [Byte.x01]. repeat split; reflexivity. }
  split; [exact H|].
  exact (proj1 (C1_verifier_chosen_by_record_evidence _ [] "binarypb" nonce0 [] _ _ H)).
Defined.

(** C1 (as stated) fails: the verified technology is none, the record holds
    a TDX quote, and the TDX verifier runs all the same; its failure fails
    the call. *)
Lemma C1_counterexample :
  let att := record_with (Some (Attestation_TdxAttestation quote0)) in
  let w := stub_verifier att true GCEConfidentialTechnology_NONE false true in
  passes_base w [] "binarypb" nonce0 att
    {| Platform := Some {| Firmware := []; Technology := GCEConfidentialTechnology_NONE |};
       RawEvents := []; ms_TeeAttestation := None |} /\
  List.filter is_tee_verifier (trace_of (VerifyAttestation w [] "binarypb" nonce0 [])) =
    [Call_verifyTdxAttestation quote0 {| tdx_Validation := nonce0; tdx_Verification := [] |}] /\
  result_of (VerifyAttestation w [] "binarypb" nonce0 []) =
    Done (None, Some (Errorf "verifying TEE attestation: %w"
                             [ArgError (Some (ExternalError "tdx: report data mismatch"))])).
Proof.
  cbv zeta. split; [apply passes_base_stub|]. split; reflexivity.
Qed.

(** C2: when the record holds a TEE-evidence variant and the call reaches
    the TEE layer, the validation options are built from [teeNonce] if it is
    not empty and from [nonce] otherwise, the verifier of the variant is
    called once with exactly these options, and the call returns a machine
    state only if that verifier accepted the evidence. *)
Theorem C2_tee_nonce_binding (w : Verifier) (b : bytes) (format : string)
    (nonce teeNonce : bytes) (att : Attestation) (ms : MachineState)
    (tee : isAttestation_TeeAttestation) :
  passes_base w b format nonce att ms ->
  att_TeeAttestation att = Some tee ->
  let chosen := if negb (length teeNonce =? 0)%nat then teeNonce else nonce in
  List.filter is_tee_call (trace_of (VerifyAttestation w b format nonce teeNonce)) =
    match tee with
    | Attestation_TdxAttestation q =>
        [Call_tdxDefaultValidateOpts chosen;
         Call_verifyTdxAttestation q
           {| tdx_Validation := tdxDefaultValidateOpts w chosen;
              tdx_Verification := tv_DefaultOptions w |}]
    | Attestation_SevSnpAttestation r =>
        [Call_sevSnpDefaultValidateOpts chosen;
         Call_verifySevSnpAttestation r
           {| snp_Validation := sevSnpDefaultValidateOpts w chosen;
              snp_Verification := sv_Options_zero |}]
    end /\
  chosen = tee_nonce nonce teeNonce /\
  forall s e, result_of (VerifyAttestation w b format nonce teeNonce) = Done (Some s, e) ->
    match tee with
    | Attestation_TdxAttestation q =>
        verifyTdxAttestation w q
          {| tdx_Validation := tdxDefaultValidateOpts w chosen;
             tdx_Verification := tv_DefaultOptions w |} = None
    | Attestation_SevSnpAttestation r =>
        verifySevSnpAttestation w r
          {| snp_Validation := sevSnpDefaultValidateOpts w chosen;
             snp_Verification := sv_Options_zero |} = None
    end.
Proof.
  intros H Htee chosen. subst chosen. rewrite <- tee_nonce_length.
  split; [|split; [reflexivity|]].
  - destruct (VerifyAttestation_after_base w b format nonce teeNonce att ms H) as [k ->].
    unfold trace_of; cbn [fst]. rewrite !List.filter_app.
    rewrite filter_deserialize_trace by reflexivity.
    rewrite Htee. destruct tee; reflexivity.
  - intros s e. rewrite (passes_base_stages _ _ _ _ teeNonce _ _ H).
    unfold after_base. rewrite Htee. cbn [tee_answer].
    destruct tee as [r|q]; fold (tdx_opts w (tee_nonce nonce teeNonce));
      fold (snp_opts w (tee_nonce nonce teeNonce)).
    + destruct (verifySevSnpAttestation w r _); [discriminate|reflexivity].
    + destruct (verifyTdxAttestation w q _); [discriminate|reflexivity].
Qed.

Lemma C2_tee_nonce_binding_witness :
  let att := record_with (Some (Attestation_SevSnpAttestation quote0)) in
  let w := stub_verifier att true GCEConfidentialTechnology_AMD_SEV_SNP true true in
  passes_base w [] "binarypb" nonce0 att
    {| Platform := Some {| Firmware := []; Technology := GCEConfidentialTechnology_AMD_SEV_SNP |};
       RawEvents := []; ms_TeeAttestation := None |} /\
  att_TeeAttestation att = Some (Attestation_SevSnpAttestation quote0) /\
  List.filter is_tee_call (trace_of (VerifyAttestation w [] "binarypb" nonce0 teeNonce0)) =
  [Call_sevSnpDefaultValidateOpts teeNonce0;
   Call_verifySevSnpAttestation quote0
     {| snp_Validation := teeNonce0; snp_Verification := sv_Options_zero |}].
Proof.
  cbv zeta.
  assert (H : passes_base
                (stub_verifier (record_with (Some (Attestation_SevSnpAttestation quote0)))
                   true GCEConfidentialTechnology_AMD_SEV_SNP true true)
                [] "binarypb" nonce0 (record_with (Some (Attestation_SevSnpAttestation quote0)))
                {| Platform := Some {| Firmware := [];
                                       Technology := GCEConfidentialTechnology_AMD_SEV_SNP |};
                   RawEvents := []; ms_TeeAttestation := None |}).
  { split; [reflexivity|]. exists [Byte.x01], [Byte.x01]. repeat split; reflexivity. }
  split; [exact H|]. split; [reflexivity|].
  exact (proj1 (C2_tee_nonce_binding _ [] "binarypb" nonce0 teeNonce0 _ _
                  (Attestation_SevSnpAttestation quote0) H eq_refl)).
Defined.

(** C3 (as amended): for every record whose verified platform technology is
    neither sev-snp nor tdx (so also for one that is not none either),
    [parseTEEAttestation] returns an empty machine state and no error, and
    [VerifyAttestation] returns the base machine state with an empty
    TEE-attestation slot unless the verifier of the evidence held by the
    record rejects it; no error about an unsupported technology is raised. *)
Theorem C3_other_technology_accepted (w : Verifier) (b : bytes) (format : string)
    (nonce teeNonce : bytes) (att : Attestation) (ms : MachineState) (p : PlatformState) :
  passes_base w b format nonce att ms ->
  Platform ms = Some p ->
  Technology p <> GCEConfidentialTechnology_AMD_SEV_SNP ->
  Technology p <> GCEConfidentialTechnology_INTEL_TDX ->
  parseTEEAttestation att (Technology p) = (Some MachineState_zero, None) /\
  result_of (VerifyAttestation w b format nonce teeNonce) =
    match tee_answer w (att_TeeAttestation att) (tee_nonce nonce teeNonce) with
    | Some err =>
        Done (None, Some (Errorf "verifying TEE attestation: %w" [ArgError (Some err)]))
    | None => Done (Some (with_tee ms None), None)
    end /\
  forall e, result_of (VerifyAttestation w b format nonce teeNonce) = Done (None, Some e) ->
    VerifyErrorKind e = VerificationError.
Proof.
  intros H Hp N1 N2.
  pose proof (parseTEEAttestation_other att _ N1 N2) as P.
  rewrite (passes_base_stages _ _ _ _ teeNonce _ _ H).
  unfold after_base. rewrite Hp, P.
  split; [reflexivity|]. split; [reflexivity|].
  intros e. destruct (tee_answer w _ _); intros [= <-]. reflexivity.
Qed.

Lemma C3_other_technology_accepted_witness :
  let att := record_with None in
  let w := stub_verifier att true GCEConfidentialTechnology_AMD_SEV true true in
  parseTEEAttestation att GCEConfidentialTechnology_AMD_SEV = (Some MachineState_zero, None) /\
  result_of (VerifyAttestation w [] "binarypb" nonce0 []) =
    Done (Some {| Platform := Some {| Firmware := [];
                                      Technology := GCEConfidentialTechnology_AMD_SEV |};
                  RawEvents := []; ms_TeeAttestation := None |}, None).
Proof.
  cbv zeta.
  pose proof (C3_other_technology_accepted
                (stub_verifier (record_with None) true GCEConfidentialTechnology_AMD_SEV true true)
                [] "binarypb" nonce0 [] (record_with None) _
                {| Firmware := []; Technology := GCEConfidentialTechnology_AMD_SEV |}
                (passes_base_stub _ _ true true [] nonce0) eq_refl) as H.
  destruct H as (H1 & H2 & _); [discriminate|discriminate|].
  split; [exact H1|exact H2].
Defined.

(** C3 (as stated) fails: the verified technology has the value 7, which
    names no technology, and the call returns a machine state. *)
Lemma C3_counterexample :
  let att := record_with None in
  let w := stub_verifier att true 7 true true in
  passes_base w [] "binarypb" nonce0 att
    {| Platform := Some {| Firmware := []; Technology := 7 |};
       RawEvents := []; ms_TeeAttestation := None |} /\
  7 <> GCEConfidentialTechnology_NONE /\
  7 <> GCEConfidentialTechnology_AMD_SEV_SNP /\
  7 <> GCEConfidentialTechnology_INTEL_TDX /\
  VerifyAttestation w [] "binarypb" nonce0 [] =
    ([Call_proto_Unmarshal []; Call_DecodePublic (AkPub att); Call_Public_Key;
      Call_server_VerifyAttestation att {| vo_Nonce := nonce0; TrustedAKs := [AkPub att] |}],
     Done (Some {| Platform := Some {| Firmware := []; Technology := 7 |};
                   RawEvents := []; ms_TeeAttestation := None |}, None)).
Proof.
  cbv zeta. split; [apply passes_base_stub|].
  repeat split; try discriminate.
Qed.

(** C4 (as amended): for every record whose verified platform technology is
    sev-snp or tdx, [VerifyAttestation] returns a machine state only if the
    evidence slot holds the matching variant, which the state then mirrors;
    on any mismatch the call fails and returns no machine state: with the
    type-mismatch error of [parseTEEAttestation] when the slot is empty or
    the evidence it holds passes its own verification, and with the
    TEE-verification error when that evidence fails its own verification. *)
Theorem C4_mismatch_never_accepted (w : Verifier) (b : bytes) (format : string)
    (nonce teeNonce : bytes) (att : Attestation) (ms : MachineState) (p : PlatformState) :
  passes_base w b format nonce att ms ->
  Platform ms = Some p ->
  Technology p = GCEConfidentialTechnology_AMD_SEV_SNP \/
  Technology p = GCEConfidentialTechnology_INTEL_TDX ->
  (forall s e, result_of (VerifyAttestation w b format nonce teeNonce) = Done (Some s, e) ->
     slot_matches (Technology p) (att_TeeAttestation att) = true /\
     ms_TeeAttestation s = mirror (att_TeeAttestation att) /\ e = None) /\
  (slot_matches (Technology p) (att_TeeAttestation att) = false ->
     exists e, result_of (VerifyAttestation w b format nonce teeNonce) = Done (None, Some e) /\
       match tee_answer w (att_TeeAttestation att) (tee_nonce nonce teeNonce) with
       | None =>
           VerifyErrorKind e = TypeMismatch /\
           exists expected,
             e = Errorf "failed to parse machineState from TEE attestation: %w"
                   [ArgError (Some (Errorf expected
                      [ArgType (type_of_tee (att_TeeAttestation att))]))]
       | Some err =>
           VerifyErrorKind e = VerificationError /\
           e = Errorf "verifying TEE attestation: %w" [ArgError (Some err)]
       end).
Proof.
  intros H Hp Htech.
  rewrite (passes_base_stages _ _ _ _ teeNonce _ _ H).
  unfold after_base. rewrite Hp.
  pose proof (parseTEEAttestation_tee att _ Htech) as P.
  split.
  - intros s e. destruct (tee_answer w _ _); [discriminate|].
    destruct (slot_matches _ _).
    + rewrite P. intros [= <- <-]. auto.
    + destruct P as [e' ->]. discriminate.
  - intros Hm. rewrite Hm in P. clear P.
    destruct (tee_answer w _ _) as [err|]; [eexists; split; [reflexivity|split; reflexivity]|].
    unfold parseTEEAttestation, slot_matches, GetTeeAttestation in *.
    destruct Htech as [E|E]; rewrite E in *; cbn in *;
      destruct (att_TeeAttestation att) as [[r|q]|]; try discriminate;
      (eexists; split; [reflexivity|split; [reflexivity|eexists; reflexivity]]).
Qed.

Lemma C4_mismatch_never_accepted_witness :
  let att := record_with (Some (Attestation_TdxAttestation quote0)) in
  let w := stub_verifier att true GCEConfidentialTechnology_AMD_SEV_SNP true true in
  slot_matches GCEConfidentialTechnology_AMD_SEV_SNP (att_TeeAttestation att) = false /\
  exists e, result_of (VerifyAttestation w [] "binarypb" nonce0 []) = Done (None, Some e) /\
            VerifyErrorKind e = TypeMismatch.
Proof.
  cbv zeta. split; [reflexivity|].
  destruct (proj2 (C4_mismatch_never_accepted
              (stub_verifier (record_with (Some (Attestation_TdxAttestation quote0)))
                 true GCEConfidentialTechnology_AMD_SEV_SNP true true)
              [] "binarypb" nonce0 [] _ _
              {| Firmware := []; Technology := GCEConfidentialTechnology_AMD_SEV_SNP |}
              (passes_base_stub _ _ true true [] nonce0) eq_refl (or_introl eq_refl))
            eq_refl) as (e & He & Hk & _).
  exists e. split; [exact He|exact Hk].
Defined.

(** C4 (as stated) fails: the verified technology is sev-snp, the slot holds
    a TDX quote that the TDX verifier rejects, and the error of the call is
    the wrapped verification error, not a type mismatch. *)
Lemma C4_counterexample :
  let att := record_with (Some (Attestation_TdxAttestation quote0)) in
  let w := stub_verifier att true GCEConfidentialTechnology_AMD_SEV_SNP false true in
  let e := Errorf "verifying TEE attestation: %w"
             [ArgError (Some (ExternalError "tdx: report data mismatch"))] in
  passes_base w [] "binarypb" nonce0 att
    {| Platform := Some {| Firmware := []; Technology := GCEConfidentialTechnology_AMD_SEV_SNP |};
       RawEvents := []; ms_TeeAttestation := None |} /\
  slot_matches GCEConfidentialTechnology_AMD_SEV_SNP (att_TeeAttestation att) = false /\
  result_of (VerifyAttestation w [] "binarypb" nonce0 []) = Done (None, Some e) /\
  VerifyErrorKind e = VerificationError /\
  VerifyErrorKind e <> TypeMismatch.
Proof.
  cbv zeta. split; [apply passes_base_stub|].
  repeat split; try reflexivity. discriminate.
Qed.

(** C8: [VerifyAttestation] never returns a machine state together with an
    error, and when a stage fails (deserialization, public-key decoding, base
    quote verification, TEE-evidence verification, the matching of evidence
    and technology) it returns an error and no machine state. *)
Theorem C8_no_state_on_failure (w : Verifier) (b : bytes) (format : string)
    (nonce teeNonce : bytes) :
  (forall r, result_of (VerifyAttestation w b format nonce teeNonce) = Done r ->
     (exists e, r = (None, Some e)) \/ (exists s, r = (Some s, None))) /\
  (stage_fails w b format nonce teeNonce ->
     exists e, result_of (VerifyAttestation w b format nonce teeNonce) = Done (None, Some e)).
Proof.
  rewrite VerifyAttestation_result. split; [apply verify_stages_shape|].
  intros [e Hd | att e Hd Hp | att pub e Hd Hp Hk | att pub k e Hd Hp Hk Hs
         | att ms e H Ht | att ms p e H Hpl Hm].
  - unfold verify_stages. rewrite Hd. eexists; reflexivity.
  - unfold verify_stages. rewrite Hd, Hp. eexists; reflexivity.
  - unfold verify_stages. rewrite Hd, Hp, Hk. eexists; reflexivity.
  - unfold verify_stages. rewrite Hd, Hp, Hk, Hs. eexists; reflexivity.
  - rewrite <- VerifyAttestation_result, (passes_base_stages _ _ _ _ teeNonce _ _ H).
    unfold after_base. rewrite Ht. eexists; reflexivity.
  - rewrite <- VerifyAttestation_result, (passes_base_stages _ _ _ _ teeNonce _ _ H).
    unfold after_base. rewrite Hpl.
    destruct (tee_answer w _ _); [eexists; reflexivity|].
    destruct (parseTEEAttestation att (Technology p)) as [[t|] [e'|]];
      try discriminate Hm; eexists; reflexivity.
Qed.

Lemma C8_no_state_on_failure_witness :
  let w := stub_verifier (record_with None) false GCEConfidentialTechnology_NONE true true in
  stage_fails w [] "textproto" nonce0 [] /\
  exists e, result_of (VerifyAttestation w [] "textproto" nonce0 []) = Done (None, Some e).
Proof.
  cbv zeta.
  assert (H : stage_fails
                (stub_verifier (record_with None) false GCEConfidentialTechnology_NONE true true)
                [] "textproto" nonce0 []).
  { eapply base_quote_fails; reflexivity. }
  split; [exact H|].
  exact (proj2 (C8_no_state_on_failure _ _ _ _ _) H).
Defined.

(** ** The claims about the producer *)

(** C5: what the code does on a recognized [Key] with a [KeyAlgo] that is
    neither RSA nor ECC, once the device is open and the format is valid: the
    second lookup yields the nil function, the call of it panics, and
    [Attest] returns no error value (only the deferred close of the device
    runs). *)
Theorem C5_unknown_KeyAlgo_panics (w : Producer) (opts : AttestOptions) :
  tpm2_OpenTPM w = None ->
  Format opts = "binarypb" \/ Format opts = "textproto" ->
  Key opts = "AK" \/ Key opts = "gceAK" ->
  KeyAlgo opts <> AlgRSA -> KeyAlgo opts <> AlgECC ->
  Attest w opts = ([Call_OpenTPM; Call_rwc_Close], Panicked).
Proof.
  intros H F K N1 N2.
  assert (exists m, attestationKeys !! Key opts = Some m) as [m Hm].
  { destruct K as [-> | ->]; eexists; [apply attestationKeys_AK|apply attestationKeys_gceAK]. }
  apply (Attest_nil_createFunc w opts m H F Hm).
  exact (createFunc_absent _ _ _ Hm N1 N2).
Qed.

Lemma C5_unknown_KeyAlgo_panics_witness :
  Key opts_unknown_algo = "AK" /\
  KeyAlgo opts_unknown_algo <> AlgRSA /\
  KeyAlgo opts_unknown_algo <> AlgECC /\
  Attest (stub_producer true None) opts_unknown_algo = ([Call_OpenTPM; Call_rwc_Close], Panicked).
Proof.
  split; [reflexivity|]. split; [discriminate|]. split; [discriminate|].
  apply C5_unknown_KeyAlgo_panics;
    [reflexivity | left; reflexivity | left; reflexivity | discriminate | discriminate].
Defined.

(** C6 (as amended): for every AttestOptions whose Format is neither
    binarypb nor textproto, [Attest] opens the TPM device first; if that
    fails the call fails with the error of the open, and otherwise it fails
    with the format error, an argument error, and closes the device; the
    device open is the only call of it that reaches hardware: no key
    derivation, no opening of an evidence provider, no event-log read. *)
Theorem C6_bad_format_after_device_open (w : Producer) (opts : AttestOptions) :
  Format opts <> "binarypb" -> Format opts <> "textproto" ->
  Attest w opts =
    match tpm2_OpenTPM w with
    | Some err =>
        ([Call_OpenTPM],
         Done (None, Some (Errorf "failed to open TPM: %v" [ArgError (Some err)])))
    | None =>
        ([Call_OpenTPM; Call_rwc_Close],
         Done (None, Some (Errorf "format should be either binarypb or textproto" [])))
    end /\
  AttestErrorKind (Errorf "format should be either binarypb or textproto" []) =
    Some InvalidArgument /\
  List.filter touches_hardware (trace_of (Attest w opts)) = [Call_OpenTPM].
Proof.
  intros N1 N2.
  destruct (tpm2_OpenTPM w) as [err|] eqn:H.
  - rewrite (Attest_open_fails w opts err H). auto.
  - rewrite (Attest_bad_format w opts H N1 N2). auto.
Qed.

Lemma C6_bad_format_after_device_open_witness :
  Format opts_bad_format <> "binarypb" /\
  Format opts_bad_format <> "textproto" /\
  Attest (stub_producer true None) opts_bad_format =
    ([Call_OpenTPM; Call_rwc_Close],
     Done (None, Some (Errorf "format should be either binarypb or textproto" []))).
Proof.
  split; [discriminate|]. split; [discriminate|].
  apply (C6_bad_format_after_device_open (stub_producer true None) opts_bad_format);
    discriminate.
Defined.

(** C6 (as stated) fails: with a format that is neither encoding the TPM
    device is opened before the format is looked at, and when the device
    does not open the error is the device error. *)
Lemma C6_counterexample :
  Format opts_bad_format <> "binarypb" /\
  Format opts_bad_format <> "textproto" /\
  In Call_OpenTPM (trace_of (Attest (stub_producer true None) opts_bad_format)) /\
  exists e,
    result_of (Attest (stub_producer false None) opts_bad_format) = Done (None, Some e) /\
    AttestErrorKind e = Some DeviceError.
Proof.
  split; [discriminate|]. split; [discriminate|]. split; [left; reflexivity|].
  eexists. split; reflexivity.
Qed.

(** C7 (as amended): for every AttestOptions with a non-empty TeeNonce and
    an empty TeeTechnology, [Attest] opens no hardware evidence provider and
    returns no bytes; the error about the TeeNonce, an argument error, is
    returned after the TPM device was opened and the attestation key derived,
    both released on the way out, when the device opens, the format and the
    key are valid and the derivation succeeds. *)
Theorem C7_stray_TeeNonce_rejected (w : Producer) (opts : AttestOptions) :
  TeeNonce opts <> [] ->
  TeeTechnology opts = "" ->
  List.filter opens_evidence_provider (trace_of (Attest w opts)) = [] /\
  (forall out e, result_of (Attest w opts) <> Done (Some out, e)) /\
  (forall m f,
     tpm2_OpenTPM w = None ->
     Format opts = "binarypb" \/ Format opts = "textproto" ->
     attestationKeys !! Key opts = Some m ->
     m !! KeyAlgo opts = Some f ->
     run_createFunc w f = None ->
     Attest w opts =
       ([Call_OpenTPM; Call_createFunc f; Call_Key_Close f; Call_rwc_Close],
        Done (None, Some (Errorf
          "use of TeeNonce requires specifying TEE hardware type with TeeTechnology" []))) /\
     AttestErrorKind (Errorf
       "use of TeeNonce requires specifying TEE hardware type with TeeTechnology" []) =
       Some InvalidArgument).
Proof.
  intros N T.
  assert (S : List.filter opens_evidence_provider (trace_of (Attest w opts)) = [] /\
              forall out e, result_of (Attest w opts) <> Done (Some out, e)).
  { destruct (tpm2_OpenTPM w) as [err|] eqn:H.
    { rewrite (Attest_open_fails w opts err H). split; [reflexivity|discriminate]. }
    destruct (decide (Format opts = "binarypb" \/ Format opts = "textproto")) as [F|NF].
    2:{ rewrite (Attest_bad_format w opts H); [split; [reflexivity|discriminate] | tauto | tauto]. }
    destruct (attestationKeys !! Key opts) as [m|] eqn:K.
    2:{ rewrite (Attest_bad_key w opts H F K). split; [reflexivity|discriminate]. }
    destruct (m !! KeyAlgo opts) as [f|] eqn:A.
    2:{ rewrite (Attest_nil_createFunc w opts m H F K A). split; [reflexivity|discriminate]. }
    destruct (run_createFunc w f) as [err|] eqn:E.
    { rewrite (Attest_key_fails w opts m f err H F K A E). split; [reflexivity|discriminate]. }
    rewrite (Attest_TeeNonce_without_technology w opts m f H F K A E T N). split; [reflexivity|discriminate]. }
  assert (G : forall m f, tpm2_OpenTPM w = None ->
     Format opts = "binarypb" \/ Format opts = "textproto" ->
     attestationKeys !! Key opts = Some m ->
     m !! KeyAlgo opts = Some f ->
     run_createFunc w f = None ->
     Attest w opts =
       ([Call_OpenTPM; Call_createFunc f; Call_Key_Close f; Call_rwc_Close],
        Done (None, Some (Errorf
          "use of TeeNonce requires specifying TEE hardware type with TeeTechnology" [])))).
  { intros m f H F K A E. exact (Attest_TeeNonce_without_technology w opts m f H F K A E T N). }
  destruct S as [S1 S2]. split; [exact S1|]. split; [exact S2|].
  intros m f H F K A E. split; [exact (G m f H F K A E)|reflexivity].
Qed.

Lemma C7_stray_TeeNonce_rejected_witness :
  TeeNonce opts_stray_TeeNonce <> [] /\
  TeeTechnology opts_stray_TeeNonce = "" /\
  List.filter opens_evidence_provider
    (trace_of (Attest (stub_producer true None) opts_stray_TeeNonce)) = [].
Proof.
  split; [discriminate|]. split; [reflexivity|].
  apply (C7_stray_TeeNonce_rejected (stub_producer true None) opts_stray_TeeNonce);
    [discriminate|reflexivity].
Defined.

(** C7 (as stated) fails: the TeeNonce is set without a technology, and
    before the call fails the TPM device is opened and the key derived. *)
Lemma C7_counterexample :
  TeeNonce opts_stray_TeeNonce <> [] /\
  TeeTechnology opts_stray_TeeNonce = "" /\
  Attest (stub_producer true None) opts_stray_TeeNonce =
    ([Call_OpenTPM; Call_createFunc client_AttestationKeyRSA;
      Call_Key_Close client_AttestationKeyRSA; Call_rwc_Close],
     Done (None, Some (Errorf
       "use of TeeNonce requires specifying TEE hardware type with TeeTechnology" []))) /\
  List.filter touches_hardware
    (trace_of (Attest (stub_producer true None) opts_stray_TeeNonce)) =
    [Call_OpenTPM; Call_createFunc client_AttestationKeyRSA].
Proof.
  split; [discriminate|]. split; [reflexivity|]. split; reflexivity.
Qed.

(** C10: with a recognized Key and KeyAlgo and an open device, the
    derivation function is called exactly when the format is valid, and when
    it is called and answers with an error, [Attest] returns the error made
    from the nil error of the device open: the value is the same for every
    derivation error, and it wraps no cause. *)
Theorem C10_derivation_error_dropped (w : Producer) (opts : AttestOptions)
    (m : gmap Z KeyFunc) (f : KeyFunc) (attKeyErr : error) :
  tpm2_OpenTPM w = None ->
  attestationKeys !! Key opts = Some m ->
  m !! KeyAlgo opts = Some f ->
  run_createFunc w f = Some attKeyErr ->
  (In (Call_createFunc f) (trace_of (Attest w opts)) <->
   Format opts = "binarypb" \/ Format opts = "textproto") /\
  (In (Call_createFunc f) (trace_of (Attest w opts)) ->
   result_of (Attest w opts) =
     Done (None, Some (Errorf "failed to create attestation key: %v" [ArgError None])) /\
   Unwrap (Errorf "failed to create attestation key: %v" [ArgError None]) = None).
Proof.
  intros H K A E.
  destruct (decide (Format opts = "binarypb" \/ Format opts = "textproto")) as [F|NF].
  - rewrite (Attest_key_fails w opts m f attKeyErr H F K A E). cbn.
    split; [split; [intros _; exact F|intros _; right; left; reflexivity]|].
    intros _. split; reflexivity.
  - rewrite (Attest_bad_format w opts H); [|tauto|tauto]. cbn.
    split; [split; [|contradiction]|]; intros [X|[X|[]]]; discriminate.
Qed.

Lemma C10_derivation_error_dropped_witness :
  let w := stub_producer true (Some (ExternalError "tpm: out of memory")) in
  tpm2_OpenTPM w = None /\
  run_createFunc w client_AttestationKeyRSA = Some (ExternalError "tpm: out of memory") /\
  In (Call_createFunc client_AttestationKeyRSA) (trace_of (Attest w DefaultAttestOptions)) /\
  result_of (Attest w DefaultAttestOptions) =
    Done (None, Some (Errorf "failed to create attestation key: %v" [ArgError None])).
Proof.
  cbv zeta. split; [reflexivity|]. split; [reflexivity|].
  split; [right; left; reflexivity|].
  apply (C10_derivation_error_dropped
           (stub_producer true (Some (ExternalError "tpm: out of memory")))
           DefaultAttestOptions _ client_AttestationKeyRSA (ExternalError "tpm: out of memory")
           eq_refl attestationKeys_AK);
    [reflexivity | reflexivity | right; left; reflexivity].
Defined.

(** * Further properties of the verifier *)

Lemma deserialize_binarypb (w : Verifier) (format : string) (b : bytes) (a : Attestation) :
  String.eqb format "binarypb" = true -> proto_Unmarshal w b = inl a ->
  deserialize w format b = inl a.
Proof. intros H1 H2. unfold deserialize. rewrite H1, H2. reflexivity. Qed.

Lemma deserialize_textproto (w : Verifier) (format : string) (b : bytes) (a : Attestation) :
  String.eqb format "binarypb" = false -> String.eqb format "textproto" = true ->
  unmarshalOptions_Unmarshal w b = inl a ->
  deserialize w format b = inl a.
Proof. intros H1 H2 H3. unfold deserialize. rewrite H1, H2, H3. reflexivity. Qed.

(** The trace of [VerifyAttestation] when a stage before the TEE layer
    fails: the calls up to the failing one. *)
Lemma VerifyAttestation_trace_before_base (w : Verifier) (b : bytes) (format : string)
    (nonce teeNonce : bytes) :
  (forall att ms, ~ passes_base w b format nonce att ms) ->
  List.filter is_tee_call (trace_of (VerifyAttestation w b format nonce teeNonce)) = [].
Proof.
  intros H.
  destruct (deserialize w format b) as [att|e] eqn:Hd.
  - destruct (tpm2_DecodePublic w (AkPub att)) as [pub|e] eqn:Hp.
    + destruct (Public_Key w pub) as [k|e] eqn:Hk.
      * destruct (server_VerifyAttestation w att {| vo_Nonce := nonce; TrustedAKs := [k] |})
          as [ms|e] eqn:Hs.
        -- exfalso. apply (H att ms). split; [exact Hd|]. exists pub, k. auto.
        -- unfold VerifyAttestation, deserialize in *.
           destruct (String.eqb format "binarypb");
             [destruct (proto_Unmarshal w b); [|discriminate]
             |destruct (String.eqb format "textproto"); [|discriminate];
              destruct (unmarshalOptions_Unmarshal w b); [|discriminate]];
             injection Hd as ->; go_unfold; rewrite Hp, Hk, Hs; reflexivity.
      * unfold VerifyAttestation, deserialize in *.
        destruct (String.eqb format "binarypb");
          [destruct (proto_Unmarshal w b); [|discriminate]
          |destruct (String.eqb format "textproto"); [|discriminate];
           destruct (unmarshalOptions_Unmarshal w b); [|discriminate]];
          injection Hd as ->; go_unfold; rewrite Hp, Hk; reflexivity.
    + unfold VerifyAttestation, deserialize in *.
      destruct (String.eqb format "binarypb");
        [destruct (proto_Unmarshal w b); [|discriminate]
        |destruct (String.eqb format "textproto"); [|discriminate];
         destruct (unmarshalOptions_Unmarshal w b); [|discriminate]];
        injection Hd as ->; go_unfold; rewrite Hp; reflexivity.
  - unfold VerifyAttestation, deserialize in *.
    destruct (String.eqb format "binarypb");
      [destruct (proto_Unmarshal w b); [discriminate|]
      |destruct (String.eqb format "textproto");
       [destruct (unmarshalOptions_Unmarshal w b); [discriminate|]|]];
      reflexivity.
Qed.

(** X1: with a format that is neither binarypb nor textproto,
    [VerifyAttestation] fails at once: no decoder, no key decoding and no
    verifier is called, and the bytes are not looked at. *)
Theorem VerifyAttestation_unknown_format (w : Verifier) (b : bytes) (format : string)
    (nonce teeNonce : bytes) :
  format <> "binarypb" -> format <> "textproto" ->
  VerifyAttestation w b format nonce teeNonce =
  ([], Done (None, Some (Errorf "format should be either binarypb or textproto" []))).
Proof.
  intros N1 N2. apply String.eqb_neq in N1, N2.
  unfold VerifyAttestation. rewrite N1, N2. reflexivity.
Qed.

Lemma VerifyAttestation_unknown_format_witness :
  "json" <> "binarypb" /\ "json" <> "textproto" /\
  VerifyAttestation (stub_verifier (record_with None) true GCEConfidentialTechnology_NONE
                       true true) quote0 "json" nonce0 teeNonce0 =
  ([], Done (None, Some (Errorf "format should be either binarypb or textproto" []))).
Proof.
  split; [discriminate|]. split; [discriminate|].
  apply VerifyAttestation_unknown_format; discriminate.
Defined.

(** X2: the TEE layer is reached only through base quote verification: if
    a call builds validation options or calls an evidence verifier, then the
    record was decoded, its key was decoded and the base verifier accepted
    the quote. *)
Theorem tee_layer_only_after_base (w : Verifier) (b : bytes) (format : string)
    (nonce teeNonce : bytes) :
  List.filter is_tee_call (trace_of (VerifyAttestation w b format nonce teeNonce)) <> [] ->
  exists att ms, passes_base w b format nonce att ms.
Proof.
  intros H.
  destruct (deserialize w format b) as [att|e] eqn:Hd.
  2:{ exfalso. apply H. apply VerifyAttestation_trace_before_base.
      intros att ms [Hd' _]. congruence. }
  destruct (tpm2_DecodePublic w (AkPub att)) as [pub|e] eqn:Hp.
  2:{ exfalso. apply H. apply VerifyAttestation_trace_before_base.
      intros att' ms [Hd' (pub & k & Hp' & _)]. congruence. }
  destruct (Public_Key w pub) as [k|e] eqn:Hk.
  2:{ exfalso. apply H. apply VerifyAttestation_trace_before_base.
      intros att' ms [Hd' (pub' & k & Hp' & Hk' & _)]. congruence. }
  destruct (server_VerifyAttestation w att {| vo_Nonce := nonce; TrustedAKs := [k] |})
    as [ms|e] eqn:Hs.
  2:{ exfalso. apply H. apply VerifyAttestation_trace_before_base.
      intros att' ms [Hd' (pub' & k' & Hp' & Hk' & Hs')]. congruence. }
  exists att, ms. split; [exact Hd|]. exists pub, k. auto.
Qed.

Lemma tee_layer_only_after_base_witness :
  let att := record_with (Some (Attestation_TdxAttestation quote0)) in
  let w := stub_verifier att true GCEConfidentialTechnology_INTEL_TDX true true in
  List.filter is_tee_call (trace_of (VerifyAttestation w [] "binarypb" nonce0 [])) <> [] /\
  exists a ms, passes_base w [] "binarypb" nonce0 a ms.
Proof.
  cbv zeta.
  assert (H : List.filter is_tee_call
                (trace_of (VerifyAttestation
                   (stub_verifier (record_with (Some (Attestation_TdxAttestation quote0)))
                      true GCEConfidentialTechnology_INTEL_TDX true true)
                   [] "binarypb" nonce0 [])) <> []) by discriminate.
  split; [exact H|]. exact (tee_layer_only_after_base _ _ _ _ _ H).
Defined.

Lemma VerifyAttestation_trace (w : Verifier) (b : bytes) (format : string)
    (nonce teeNonce : bytes) :
  trace_of (VerifyAttestation w b format nonce teeNonce) =
  verify_trace w b format nonce teeNonce.
Proof.
  unfold VerifyAttestation, verify_trace, deserialize, deserialize_trace, trace_of.
  go_unfold.
  repeat (first [rewrite verifyGceTechnology_eq | case_innermost];
          cbn [fst snd app invoke]);
    try discriminate;
    repeat match goal with
           | H : inl _ = inl _ |- _ => injection H as ->
           | H : inr _ = inr _ |- _ => injection H as ->
           end;
    rewrite ?app_nil_r; try reflexivity; try congruence.
Qed.

(** X3: whenever the base verifier is called, it is called on the record
    decoded from the bytes, with the caller's [nonce] (never the TEE nonce),
    and with one trusted key: the key decoded from the public key that this
    same record carries. *)
Theorem base_verifier_trusts_record_key (w : Verifier) (b : bytes) (format : string)
    (nonce teeNonce : bytes) (a : Attestation) (o : VerifyOpts) :
  In (Call_server_VerifyAttestation a o)
     (trace_of (VerifyAttestation w b format nonce teeNonce)) ->
  deserialize w format b = inl a /\
  vo_Nonce o = nonce /\
  exists pub cryptoPub,
    tpm2_DecodePublic w (AkPub a) = inl pub /\
    Public_Key w pub = inl cryptoPub /\
    TrustedAKs o = [cryptoPub].
Proof.
  rewrite VerifyAttestation_trace. unfold verify_trace.
  rewrite in_app_iff. intros [H|H].
  { unfold deserialize_trace in H.
    destruct (String.eqb format "binarypb"); [destruct H as [H|[]]; discriminate|].
    destruct (String.eqb format "textproto"); [destruct H as [H|[]]; discriminate|].
    destruct H. }
  destruct (deserialize w format b) as [att|e]; [|destruct H].
  destruct H as [H|H]; [discriminate|].
  destruct (tpm2_DecodePublic w (AkPub att)) as [pub|e] eqn:Hp; [|destruct H].
  destruct H as [H|H]; [discriminate|].
  destruct (Public_Key w pub) as [k|e] eqn:Hk; [|destruct H].
  destruct H as [H|H].
  - injection H as <- <-. split; [reflexivity|]. split; [reflexivity|].
    exists pub, k. auto.
  - exfalso.
    destruct (server_VerifyAttestation w att _); [|destruct H].
    destruct (att_TeeAttestation att) as [[r|q]|]; cbn in H;
      repeat (destruct H as [H|H]; [discriminate|]); destruct H.
Qed.

Lemma base_verifier_trusts_record_key_witness :
  let att := record_with None in
  let w := stub_verifier att true GCEConfidentialTechnology_NONE true true in
  let o := {| vo_Nonce := nonce0; TrustedAKs := [AkPub att] |} in
  In (Call_server_VerifyAttestation att o)
     (trace_of (VerifyAttestation w [] "binarypb" nonce0 teeNonce0)) /\
  vo_Nonce o = nonce0.
Proof.
  cbv zeta.
  assert (H : In (Call_server_VerifyAttestation (record_with None)
                    {| vo_Nonce := nonce0; TrustedAKs := [AkPub (record_with None)] |})
                 (trace_of (VerifyAttestation
                    (stub_verifier (record_with None) true GCEConfidentialTechnology_NONE
                       true true) [] "binarypb" nonce0 teeNonce0))).
  { right; right; right; left; reflexivity. }
  split; [exact H|].
  exact (proj1 (proj2 (base_verifier_trusts_record_key _ _ _ _ _ _ _ H))).
Defined.

Lemma parseTEEAttestation_shape (att : Attestation) (tech : GCEConfidentialTechnology) :
  (exists s, parseTEEAttestation att tech = (Some s, None)) \/
  (exists e, parseTEEAttestation att tech = (None, Some e)).
Proof.
  unfold parseTEEAttestation.
  destruct (tech =? GCEConfidentialTechnology_AMD_SEV_SNP);
    [|destruct (tech =? GCEConfidentialTechnology_INTEL_TDX)];
    [| |eauto]; destruct (att_TeeAttestation att) as [[r|q]|]; eauto.
Qed.

(** X4: [VerifyAttestation] panics in exactly one situation: every stage
    up to the TEE verification passed and the machine state answered by the
    base verifier has no platform. *)
Theorem VerifyAttestation_panics_iff (w : Verifier) (b : bytes) (format : string)
    (nonce teeNonce : bytes) :
  result_of (VerifyAttestation w b format nonce teeNonce) = Panicked <->
  exists att ms,
    passes_base w b format nonce att ms /\
    tee_answer w (att_TeeAttestation att) (tee_nonce nonce teeNonce) = None /\
    Platform ms = None.
Proof.
  split.
  - rewrite VerifyAttestation_result. unfold verify_stages.
    destruct (deserialize w format b) as [att|e] eqn:Hd; [|discriminate].
    destruct (tpm2_DecodePublic w (AkPub att)) as [pub|e] eqn:Hp; [|discriminate].
    destruct (Public_Key w pub) as [k|e] eqn:Hk; [|discriminate].
    destruct (server_VerifyAttestation w att _) as [ms|e] eqn:Hs; [|discriminate].
    unfold after_base.
    destruct (tee_answer w _ _) eqn:Ht; [discriminate|].
    destruct (Platform ms) as [p|] eqn:Hpl.
    + destruct (parseTEEAttestation_shape att (Technology p)) as [[s ->]|[e ->]]; discriminate.
    + intros _. exists att, ms. split; [|auto].
      split; [exact Hd|]. exists pub, k. auto.
  - intros (att & ms & H & Ht & Hpl).
    rewrite (passes_base_stages _ _ _ _ teeNonce _ _ H).
    unfold after_base. rewrite Ht, Hpl. reflexivity.
Qed.

Lemma VerifyAttestation_panics_iff_witness :
  let att := record_with None in
  let w := verifier_without_platform att in
  passes_base w [] "binarypb" nonce0 att MachineState_zero /\
  result_of (VerifyAttestation w [] "binarypb" nonce0 []) = Panicked.
Proof.
  cbv zeta.
  assert (H : passes_base (verifier_without_platform (record_with None)) [] "binarypb" nonce0
                (record_with None) MachineState_zero).
  { split; [reflexivity|]. exists [Byte.x01], [Byte.x01]. repeat split; reflexivity. }
  split; [exact H|].
  apply (proj2 (VerifyAttestation_panics_iff _ _ _ _ _)).
  exists (record_with None), MachineState_zero. split; [exact H|]. split; reflexivity.
Defined.

(** X5: [VerifyAttestation] returns a machine state exactly when every
    stage passed: the record was decoded and base-verified, the verifier of
    the evidence it holds (if any) accepted, the base state has a platform,
    and for the technologies sev-snp and tdx the slot holds the matching
    variant.  The state returned is the base state with its TEE slot
    replaced: by the record's evidence for sev-snp and tdx, by nothing for
    every other technology, whatever the base verifier had put there. *)
Theorem VerifyAttestation_succeeds_iff (w : Verifier) (b : bytes) (format : string)
    (nonce teeNonce : bytes) (s : MachineState) :
  result_of (VerifyAttestation w b format nonce teeNonce) = Done (Some s, None) <->
  exists att ms p,
    passes_base w b format nonce att ms /\
    tee_answer w (att_TeeAttestation att) (tee_nonce nonce teeNonce) = None /\
    Platform ms = Some p /\
    (Technology p = GCEConfidentialTechnology_AMD_SEV_SNP \/
     Technology p = GCEConfidentialTechnology_INTEL_TDX ->
     slot_matches (Technology p) (att_TeeAttestation att) = true) /\
    s = {| Platform := Platform ms; RawEvents := RawEvents ms;
           ms_TeeAttestation :=
             if slot_matches (Technology p) (att_TeeAttestation att)
             then mirror (att_TeeAttestation att) else None |}.
Proof.
  assert (P : forall att tech,
             (tech = GCEConfidentialTechnology_AMD_SEV_SNP \/
              tech = GCEConfidentialTechnology_INTEL_TDX ->
              slot_matches tech (att_TeeAttestation att) = true) ->
             exists t, parseTEEAttestation att tech = (Some t, None) /\
                       ms_TeeAttestation t =
                         if slot_matches tech (att_TeeAttestation att)
                         then mirror (att_TeeAttestation att) else None).
  { intros att tech Hm.
    destruct (Z.eq_dec tech GCEConfidentialTechnology_AMD_SEV_SNP) as [E|N1];
      [|destruct (Z.eq_dec tech GCEConfidentialTechnology_INTEL_TDX) as [E|N2]].
    - pose proof (parseTEEAttestation_tee att tech (or_introl E)) as Q.
      rewrite (Hm (or_introl E)) in *. eexists; split; [exact Q|reflexivity].
    - pose proof (parseTEEAttestation_tee att tech (or_intror E)) as Q.
      rewrite (Hm (or_intror E)) in *. eexists; split; [exact Q|reflexivity].
    - rewrite parseTEEAttestation_other by assumption. eexists; split; [reflexivity|].
      cbn. unfold slot_matches. destruct (att_TeeAttestation att) as [[r|q]|]; [| |reflexivity].
      + destruct (Z.eqb_spec tech GCEConfidentialTechnology_AMD_SEV_SNP);
          [contradiction|reflexivity].
      + destruct (Z.eqb_spec tech GCEConfidentialTechnology_INTEL_TDX);
          [contradiction|reflexivity]. }
  split.
  - rewrite VerifyAttestation_result. unfold verify_stages.
    destruct (deserialize w format b) as [att|e] eqn:Hd; [|discriminate].
    destruct (tpm2_DecodePublic w (AkPub att)) as [pub|e] eqn:Hp; [|discriminate].
    destruct (Public_Key w pub) as [k|e] eqn:Hk; [|discriminate].
    destruct (server_VerifyAttestation w att _) as [ms|e] eqn:Hs; [|discriminate].
    unfold after_base.
    destruct (tee_answer w _ _) eqn:Ht; [discriminate|].
    destruct (Platform ms) as [p|] eqn:Hpl; [|discriminate].
    intros H. exists att, ms, p.
    split; [split; [exact Hd|]; exists pub, k; auto|].
    split; [exact Ht|]. split; [exact Hpl|].
    assert (Hm : Technology p = GCEConfidentialTechnology_AMD_SEV_SNP \/
                 Technology p = GCEConfidentialTechnology_INTEL_TDX ->
                 slot_matches (Technology p) (att_TeeAttestation att) = true).
    { intros Htech. pose proof (parseTEEAttestation_tee att _ Htech) as Q.
      destruct (slot_matches _ _); [reflexivity|].
      destruct Q as [e Q]. rewrite Q in H. discriminate. }
    split; [exact Hm|].
    destruct (P att (Technology p) Hm) as (t & Q & Qt).
    rewrite Q in H. injection H as <-. unfold with_tee. rewrite Qt, Hpl. reflexivity.
  - intros (att & ms & p & H & Ht & Hpl & Hm & ->).
    rewrite (passes_base_stages _ _ _ _ teeNonce _ _ H).
    unfold after_base. rewrite Ht, Hpl.
    destruct (P att (Technology p) Hm) as (t & Q & Qt).
    rewrite Q. unfold with_tee. rewrite Qt, Hpl. reflexivity.
Qed.

Lemma VerifyAttestation_succeeds_iff_witness :
  let att := record_with (Some (Attestation_SevSnpAttestation quote0)) in
  let w := stub_verifier att true GCEConfidentialTechnology_AMD_SEV_SNP true true in
  result_of (VerifyAttestation w [] "binarypb" nonce0 teeNonce0) =
    Done (Some {| Platform := Some {| Firmware := [];
                                      Technology := GCEConfidentialTechnology_AMD_SEV_SNP |};
                  RawEvents := [];
                  ms_TeeAttestation := Some (MachineState_SevSnpAttestation quote0) |}, None).
Proof.
  cbv zeta.
  apply (proj2 (VerifyAttestation_succeeds_iff _ _ _ _ _ _)).
  exists (record_with (Some (Attestation_SevSnpAttestation quote0))),
         {| Platform := Some {| Firmware := [];
                                Technology := GCEConfidentialTechnology_AMD_SEV_SNP |};
            RawEvents := []; ms_TeeAttestation := None |},
         {| Firmware := []; Technology := GCEConfidentialTechnology_AMD_SEV_SNP |}.
  split; [apply passes_base_stub|]. repeat split; reflexivity.
Defined.

Lemma VerifyAttestation_teeNonce_ext (w : Verifier) (b : bytes) (format : string)
    (nonce t1 t2 : bytes) :
  (forall att, deserialize w format b = inl att ->
     tee_nonce nonce t1 = tee_nonce nonce t2 \/ att_TeeAttestation att = None) ->
  VerifyAttestation w b format nonce t1 = VerifyAttestation w b format nonce t2.
Proof.
  intros H.
  apply injective_projections.
  - change (trace_of (VerifyAttestation w b format nonce t1) =
            trace_of (VerifyAttestation w b format nonce t2)).
    rewrite !VerifyAttestation_trace. unfold verify_trace.
    destruct (deserialize w format b) as [att|e]; [|reflexivity].
    destruct (H att eq_refl) as [E|E]; rewrite E; reflexivity.
  - change (result_of (VerifyAttestation w b format nonce t1) =
            result_of (VerifyAttestation w b format nonce t2)).
    rewrite !VerifyAttestation_result. unfold verify_stages, after_base.
    destruct (deserialize w format b) as [att|e]; [|reflexivity].
    destruct (H att eq_refl) as [E|E]; rewrite E; reflexivity.
Qed.

(** X6: leaving the TEE nonce out is the same as passing the TPM nonce for
    it: the two calls make the same library calls and return the same
    result. *)
Theorem VerifyAttestation_teeNonce_default (w : Verifier) (b : bytes) (format : string)
    (nonce : bytes) :
  VerifyAttestation w b format nonce [] = VerifyAttestation w b format nonce nonce.
Proof.
  apply VerifyAttestation_teeNonce_ext. intros att _. left.
  destruct nonce; reflexivity.
Qed.

(** X7: when the record holds no TEE evidence the TEE nonce is never
    looked at: the call makes the same library calls and returns the same
    result for every TEE nonce. *)
Theorem VerifyAttestation_teeNonce_ignored_without_evidence (w : Verifier) (b : bytes)
    (format : string) (nonce : bytes) (att : Attestation) (t1 t2 : bytes) :
  deserialize w format b = inl att ->
  att_TeeAttestation att = None ->
  VerifyAttestation w b format nonce t1 = VerifyAttestation w b format nonce t2.
Proof.
  intros Hd Hn. apply VerifyAttestation_teeNonce_ext.
  intros att' Hd'. right. congruence.
Qed.

Lemma VerifyAttestation_teeNonce_ignored_without_evidence_witness :
  let att := record_with None in
  let w := stub_verifier att true GCEConfidentialTechnology_AMD_SEV true true in
  deserialize w "textproto" [] = inl att /\
  att_TeeAttestation att = None /\
  VerifyAttestation w [] "textproto" nonce0 teeNonce0 =
  VerifyAttestation w [] "textproto" nonce0 quote0.
Proof.
  cbv zeta. split; [reflexivity|]. split; [reflexivity|].
  exact (VerifyAttestation_teeNonce_ignored_without_evidence
           (stub_verifier (record_with None) true GCEConfidentialTechnology_AMD_SEV true true)
           [] "textproto" nonce0 (record_with None) teeNonce0 quote0 eq_refl eq_refl).
Defined.

(** X8: [verifyGceTechnology] never panics and calls at most one evidence
    verifier; with no evidence in the record it calls nothing and reports no
    error; an error it reports is the answer of the verifier of the variant
    held, called on that evidence with options built from the chosen nonce
    (the type-mismatch errors written in the function cannot arise). *)
Theorem verifyGceTechnology_reports_verifier_answer (w : Verifier) (att : Attestation)
    (nonce teeNonce : bytes) :
  (att_TeeAttestation att = None ->
   verifyGceTechnology w att nonce teeNonce = ([], Done None)) /\
  result_of (verifyGceTechnology w att nonce teeNonce) <> Panicked /\
  (length (List.filter is_tee_verifier (trace_of (verifyGceTechnology w att nonce teeNonce)))
     <= 1)%nat /\
  forall e, result_of (verifyGceTechnology w att nonce teeNonce) = Done (Some e) ->
    (exists q, att_TeeAttestation att = Some (Attestation_TdxAttestation q) /\
               verifyTdxAttestation w q (tdx_opts w (tee_nonce nonce teeNonce)) = Some e) \/
    (exists r, att_TeeAttestation att = Some (Attestation_SevSnpAttestation r) /\
               verifySevSnpAttestation w r (snp_opts w (tee_nonce nonce teeNonce)) = Some e).
Proof.
  rewrite verifyGceTechnology_eq. unfold result_of, trace_of; cbn [fst snd].
  split; [intros ->; reflexivity|]. split; [discriminate|].
  destruct (att_TeeAttestation att) as [[r|q]|]; cbn; (split; [lia|]);
    intros e [= H]; eauto; discriminate.
Qed.

Lemma verifyGceTechnology_reports_verifier_answer_witness :
  verifyGceTechnology
    (stub_verifier (record_with None) true GCEConfidentialTechnology_NONE false false)
    (record_with None) nonce0 teeNonce0 = ([], Done None).
Proof.
  exact (proj1 (verifyGceTechnology_reports_verifier_answer _ (record_with None) _ _) eq_refl).
Defined.

(** X9: [parseTEEAttestation] returns a state or an error, never both and
    never neither.  It fails exactly when the technology is sev-snp or tdx
    and the slot does not hold the matching variant; the state it returns
    carries nothing but the TEE slot, which mirrors the record's evidence
    for sev-snp and tdx and is empty for every other technology. *)
Theorem parseTEEAttestation_cases (att : Attestation) (tech : GCEConfidentialTechnology) :
  let tee_tech := tech = GCEConfidentialTechnology_AMD_SEV_SNP \/
                  tech = GCEConfidentialTechnology_INTEL_TDX in
  match parseTEEAttestation att tech with
  | (Some s, None) =>
      (tee_tech -> slot_matches tech (att_TeeAttestation att) = true) /\
      Platform s = None /\ RawEvents s = [] /\
      ms_TeeAttestation s =
        if slot_matches tech (att_TeeAttestation att)
        then mirror (att_TeeAttestation att) else None
  | (None, Some e) =>
      tee_tech /\ slot_matches tech (att_TeeAttestation att) = false /\
      exists expected, e = Errorf expected [ArgType (type_of_tee (att_TeeAttestation att))]
  | _ => False
  end.
Proof.
  cbv zeta. unfold parseTEEAttestation, slot_matches, GetTeeAttestation.
  destruct (Z.eqb_spec tech GCEConfidentialTechnology_AMD_SEV_SNP) as [->|N1];
    [|destruct (Z.eqb_spec tech GCEConfidentialTechnology_INTEL_TDX) as [->|N2]];
    destruct (att_TeeAttestation att) as [[r|q]|]; cbn;
    repeat split; eauto; try tauto; try (intros [?|?]; congruence).
Qed.

(** * Further properties of the producer *)


(** X10: [Attest] returns bytes or an error, never both and never
    neither. *)
Theorem Attest_bytes_or_error (w : Producer) (opts : AttestOptions)
    (r : option bytes * option error) :
  result_of (Attest w opts) = Done r ->
  (exists out, r = (Some out, None)) \/ (exists e, r = (None, Some e)).
Proof.
  attest_paths; try discriminate; intros [= <-]; eauto.
Qed.

Lemma Attest_bytes_or_error_witness :
  result_of (Attest (stub_producer true None) DefaultAttestOptions) = Done (Some [], None) /\
  ((exists out, (Some ([] : bytes), @None error) = (Some out, None)) \/
   (exists e, (Some ([] : bytes), @None error) = (None, Some e))).
Proof.
  split; [reflexivity|].
  apply (Attest_bytes_or_error (stub_producer true None) DefaultAttestOptions).
  reflexivity.
Defined.

Lemma attestationKeys_unknown (key : string) :
  key <> "AK" -> key <> "gceAK" -> attestationKeys !! key = None.
Proof.
  intros N1 N2. unfold attestationKeys.
  rewrite lookup_insert_ne by congruence. apply lookup_singleton_ne. congruence.
Qed.

Lemma valid_format_eqb (format : string) :
  negb (String.eqb format "binarypb" || String.eqb format "textproto") = false <->
  format = "binarypb" \/ format = "textproto".
Proof.
  split; [|apply valid_format_test].
  destruct (String.eqb_spec format "binarypb"); [auto|].
  destruct (String.eqb_spec format "textproto"); [auto|discriminate].
Qed.

(** X11: [Attest] panics in exactly one situation: the device opened, the
    format is valid, the key type is in the table and its row has no entry
    for the key algorithm. *)
Theorem Attest_panics_iff (w : Producer) (opts : AttestOptions) :
  result_of (Attest w opts) = Panicked <->
  tpm2_OpenTPM w = None /\
  (Format opts = "binarypb" \/ Format opts = "textproto") /\
  exists m, attestationKeys !! Key opts = Some m /\ m !! KeyAlgo opts = None.
Proof.
  split.
  - destruct (tpm2_OpenTPM w) as [err|] eqn:H.
    { rewrite (Attest_open_fails w opts err H). discriminate. }
    destruct (decide (Format opts = "binarypb" \/ Format opts = "textproto")) as [F|NF].
    2:{ rewrite (Attest_bad_format w opts H); [discriminate|tauto|tauto]. }
    destruct (attestationKeys !! Key opts) as [m|] eqn:K.
    2:{ rewrite (Attest_bad_key w opts H F K). discriminate. }
    destruct (m !! KeyAlgo opts) as [f|] eqn:A; [|eauto 6].
    intros P. exfalso. revert P.
    attest_paths; try discriminate; congruence.
  - intros (H & F & m & K & A). rewrite (Attest_nil_createFunc w opts m H F K A). reflexivity.
Qed.

Lemma Attest_panics_iff_witness :
  result_of (Attest (stub_producer true None) opts_unknown_algo) = Panicked.
Proof.
  apply (proj2 (Attest_panics_iff (stub_producer true None) opts_unknown_algo)).
  split; [reflexivity|]. split; [left; reflexivity|].
  exists {[ AlgRSA := client_AttestationKeyRSA; AlgECC := client_AttestationKeyECC ]}.
  split; [apply attestationKeys_AK|].
  apply (createFunc_absent "AK" _ _ attestationKeys_AK); discriminate.
Defined.

(** X12: the device is released on every path.  When the open fails
    nothing else is called; when it succeeds the trace starts with the open
    and ends with the close, by a return, an error or a panic, and the device
    is neither opened nor closed in between. *)
Theorem Attest_releases_device (w : Producer) (opts : AttestOptions) :
  match tpm2_OpenTPM w with
  | Some _ => trace_of (Attest w opts) = [Call_OpenTPM]
  | None =>
      exists mid,
        trace_of (Attest w opts) = Call_OpenTPM :: mid ++ [Call_rwc_Close] /\
        ~ In Call_OpenTPM mid /\ ~ In Call_rwc_Close mid
  end.
Proof.
  attest_paths; try reflexivity;
    match goal with
    | |- exists mid, Call_OpenTPM :: ?t = _ /\ _ => exists (removelast t)
    end;
    cbn; (split; [reflexivity|]); split; intuition discriminate.
Qed.

(** X13: the key is released exactly when it was derived: its close is
    in the trace if and only if its derivation was called and succeeded, and
    then the close of the key and the close of the device are the last two
    calls, in this order, and the key is closed once. *)
Theorem Attest_releases_key (w : Producer) (opts : AttestOptions) (f : KeyFunc) :
  (In (Call_Key_Close f) (trace_of (Attest w opts)) <->
   In (Call_createFunc f) (trace_of (Attest w opts)) /\ run_createFunc w f = None) /\
  (In (Call_Key_Close f) (trace_of (Attest w opts)) ->
   exists pre,
     trace_of (Attest w opts) = pre ++ [Call_Key_Close f; Call_rwc_Close] /\
     ~ In (Call_Key_Close f) pre).
Proof.
  attest_paths;
    (split;
     [split;
      [intros H; in_cases H; (split; [cbn; auto 20|congruence])
      |intros [H R]; in_cases H; first [congruence|cbn; auto 20]]
     |intros H; in_cases H;
      match goal with
      | |- exists pre, ?t = _ /\ _ => exists (removelast (removelast t))
      end;
      cbn; (split; [reflexivity|intuition discriminate])]).
Qed.

Lemma Attest_releases_key_witness :
  In (Call_Key_Close client_AttestationKeyRSA)
     (trace_of (Attest (stub_producer true None) DefaultAttestOptions)) /\
  In (Call_createFunc client_AttestationKeyRSA)
     (trace_of (Attest (stub_producer true None) DefaultAttestOptions)).
Proof.
  assert (H : In (Call_Key_Close client_AttestationKeyRSA)
                 (trace_of (Attest (stub_producer true None) DefaultAttestOptions))).
  { do 5 right. left. reflexivity. }
  split; [exact H|].
  exact (proj1 (proj1 (proj1 (Attest_releases_key _ _ _)) H)).
Defined.

(** X14: a key type other than AK and gceAK is rejected with an argument
    error once the device is open and the format is valid; no key is derived
    and the device is closed. *)
Theorem Attest_unknown_key (w : Producer) (opts : AttestOptions) :
  tpm2_OpenTPM w = None ->
  Format opts = "binarypb" \/ Format opts = "textproto" ->
  Key opts <> "AK" -> Key opts <> "gceAK" ->
  Attest w opts =
    ([Call_OpenTPM; Call_rwc_Close],
     Done (None, Some (Errorf "key should be either AK or gceAK" []))) /\
  AttestErrorKind (Errorf "key should be either AK or gceAK" []) = Some InvalidArgument.
Proof.
  intros H F N1 N2. split; [|reflexivity].
  apply (Attest_bad_key w opts H F). apply attestationKeys_unknown; assumption.
Qed.

Lemma Attest_unknown_key_witness :
  let opts := {| Key := "foo"; KeyAlgo := AlgRSA; Nonce := nonce0; TeeTechnology := "";
                 TeeNonce := []; Format := "textproto" |} in
  Key opts <> "AK" /\ Key opts <> "gceAK" /\
  Attest (stub_producer true None) opts =
    ([Call_OpenTPM; Call_rwc_Close],
     Done (None, Some (Errorf "key should be either AK or gceAK" []))).
Proof.
  cbv zeta. split; [discriminate|]. split; [discriminate|].
  apply (Attest_unknown_key (stub_producer true None)
           {| Key := "foo"; KeyAlgo := AlgRSA; Nonce := nonce0; TeeTechnology := "";
              TeeNonce := []; Format := "textproto" |});
    [reflexivity | right; reflexivity | discriminate | discriminate].
Defined.

(** X15: a technology string other than sev-snp, tdx and the empty string
    is rejected with an argument error, after the device was opened and the
    key derived; no evidence provider is opened, the event log is not read,
    and key and device are released. *)
Theorem Attest_unknown_TeeTechnology (w : Producer) (opts : AttestOptions)
    (m : gmap Z KeyFunc) (f : KeyFunc) :
  tpm2_OpenTPM w = None ->
  Format opts = "binarypb" \/ Format opts = "textproto" ->
  attestationKeys !! Key opts = Some m ->
  m !! KeyAlgo opts = Some f ->
  run_createFunc w f = None ->
  TeeTechnology opts <> SevSnp -> TeeTechnology opts <> Tdx -> TeeTechnology opts <> "" ->
  Attest w opts =
    ([Call_OpenTPM; Call_createFunc f; Call_Key_Close f; Call_rwc_Close],
     Done (None, Some (Errorf
       "tee-technology should be either empty or should have values %s or %s"
       [ArgString SevSnp; ArgString Tdx]))) /\
  AttestErrorKind (Errorf
    "tee-technology should be either empty or should have values %s or %s"
    [ArgString SevSnp; ArgString Tdx]) = Some InvalidArgument.
Proof.
  intros H F K A E N1 N2 N3. split; [|reflexivity].
  apply String.eqb_neq in N1, N2, N3.
  unfold Attest. go_unfold. rewrite H.
  rewrite (valid_format_test _ F), K. cbn. rewrite A, E, N1, N2, N3. reflexivity.
Qed.

Lemma Attest_unknown_TeeTechnology_witness :
  let opts := {| Key := "gceAK"; KeyAlgo := AlgECC; Nonce := nonce0; TeeTechnology := "sgx";
                 TeeNonce := teeNonce0; Format := "binarypb" |} in
  Attest (stub_producer true None) opts =
    ([Call_OpenTPM; Call_createFunc client_GceAttestationKeyECC;
      Call_Key_Close client_GceAttestationKeyECC; Call_rwc_Close],
     Done (None, Some (Errorf
       "tee-technology should be either empty or should have values %s or %s"
       [ArgString SevSnp; ArgString Tdx]))).
Proof.
  cbv zeta.
  apply (Attest_unknown_TeeTechnology (stub_producer true None)
           {| Key := "gceAK"; KeyAlgo := AlgECC; Nonce := nonce0; TeeTechnology := "sgx";
              TeeNonce := teeNonce0; Format := "binarypb" |}
           {[ AlgRSA := client_GceAttestationKeyRSA; AlgECC := client_GceAttestationKeyECC ]}
           client_GceAttestationKeyECC);
    [reflexivity | left; reflexivity | apply attestationKeys_gceAK | reflexivity
    | reflexivity | discriminate | discriminate | discriminate].
Defined.

(** X16: at most one evidence provider is opened in a call, and it is the
    one of the technology asked for: the SEV-SNP provider only for sev-snp,
    the TDX provider only for tdx, none for any other string. *)
Theorem Attest_opens_the_provider_asked_for (w : Producer) (opts : AttestOptions) :
  let opened := List.filter opens_evidence_provider (trace_of (Attest w opts)) in
  opened = [] \/
  (opened = [Call_CreateSevSnpQuoteProvider] /\ TeeTechnology opts = SevSnp) \/
  (opened = [Call_CreateTdxQuoteProvider] /\ TeeTechnology opts = Tdx).
Proof.
  cbv zeta. attest_paths; cbn;
    repeat match goal with
           | H : String.eqb _ _ = true |- _ => apply String.eqb_eq in H
           end;
    auto.
Qed.

(** X17: whenever the quote is taken, it is taken with the key that the
    table gives and that was derived, and the options handed to it carry the
    caller's nonce, the event log just read from the device, the caller's
    TEE nonce, and the provider of the technology asked for (none for the
    empty technology). *)
Theorem Attest_quote_options (w : Producer) (opts : AttestOptions) (f : KeyFunc)
    (o : AttestOpts) :
  In (Call_Key_Attest f o) (trace_of (Attest w opts)) ->
  (exists m, attestationKeys !! Key opts = Some m /\ m !! KeyAlgo opts = Some f) /\
  run_createFunc w f = None /\
  ao_Nonce o = Nonce opts /\
  client_GetEventLog w = inl (TCGEventLog o) /\
  TEENonce o = TeeNonce opts /\
  ao_TEEDevice o =
    (if String.eqb (TeeTechnology opts) SevSnp then Some SevSnpQuoteProvider
     else if String.eqb (TeeTechnology opts) Tdx then Some TdxQuoteProvider
     else None).
Proof.
  attest_paths; intros H; in_cases H; subst; cbn;
    repeat match goal with
           | H : negb (length ?l =? 0)%nat = false |- _ =>
               destruct l eqn:?; [clear H|discriminate H]
           end;
    (split; [eauto|]); auto.
Qed.

Lemma Attest_quote_options_witness :
  let o := {| ao_Nonce := nonce0; TCGEventLog := []; ao_TEEDevice := Some TdxQuoteProvider;
              TEENonce := teeNonce0 |} in
  In (Call_Key_Attest client_GceAttestationKeyECC o)
     (trace_of (Attest (stub_producer true None) opts_gce_tdx)) /\
  TEENonce o = TeeNonce opts_gce_tdx /\ ao_Nonce o = Nonce opts_gce_tdx.
Proof.
  cbv zeta.
  assert (H : In (Call_Key_Attest client_GceAttestationKeyECC
                    {| ao_Nonce := nonce0; TCGEventLog := [];
                       ao_TEEDevice := Some TdxQuoteProvider; TEENonce := teeNonce0 |})
                 (trace_of (Attest (stub_producer true None) opts_gce_tdx))).
  { do 4 right. left. reflexivity. }
  split; [exact H|].
  destruct (Attest_quote_options _ _ _ _ H) as (_ & _ & H1 & _ & H2 & _).
  split; [exact H2|exact H1].
Defined.

(** X19: [getInstanceInfoFromMetadata] is all or nothing.  It never
    panics, it returns the instance information or an error and never both,
    and it returns the information exactly when the metadata server answered
    all five questions and the two numbers parsed; the fields are then the
    answers. *)
Theorem getInstanceInfoFromMetadata_all_or_nothing (w : Producer) :
  result_of (getInstanceInfoFromMetadata w) <> Panicked /\
  (forall r, result_of (getInstanceInfoFromMetadata w) = Done r ->
     (exists info, r = (Some info, None)) \/ (exists e, r = (None, Some e))) /\
  (forall info,
     result_of (getInstanceInfoFromMetadata w) = Done (Some info, None) <->
     metadata_answers w info).
Proof.
  split; [|split].
  - unfold getInstanceInfoFromMetadata, result_of. go_unfold. paths; discriminate.
  - intros r. unfold getInstanceInfoFromMetadata, result_of. go_unfold.
    paths; intros [= <-]; eauto.
  - intros info. split.
    + unfold getInstanceInfoFromMetadata, result_of. go_unfold.
      paths; try discriminate. intros [= <-]. cbn. unfold metadata_answers. cbn. eauto 10.
    + intros (pn & iid & H1 & H2 & H3 & H4 & H5 & H6 & H7).
      unfold getInstanceInfoFromMetadata, result_of. go_unfold.
      rewrite H1, H2; cbn. rewrite H3, H4, H5; cbn. rewrite H6, H7; cbn.
      destruct info; reflexivity.
Qed.

Lemma getInstanceInfoFromMetadata_all_or_nothing_witness :
  let info := {| ProjectId := "p"; ProjectNumber := 1; Zone := "z"; InstanceId := 1;
                 InstanceName := "i" |} in
  metadata_answers (stub_producer true None) info /\
  result_of (getInstanceInfoFromMetadata (stub_producer true None)) = Done (Some info, None).
Proof.
  cbv zeta.
  assert (H : metadata_answers (stub_producer true None)
                {| ProjectId := "p"; ProjectNumber := 1; Zone := "z"; InstanceId := 1;
                   InstanceName := "i" |}).
  { exists "1", "2". repeat split; reflexivity. }
  split; [exact H|].
  exact (proj2 (proj2 (proj2 (getInstanceInfoFromMetadata_all_or_nothing _)) _) H).
Defined.

(** X18: what [Attest] serializes is the record the quote answered with.
    The binary encoder is called exactly for the format binarypb and the text
    encoder otherwise; the record encoded is the answer of the quote, as it
    is for every key type but gceAK, and with its instance information
    replaced by the complete answers of the metadata server for gceAK. *)
Theorem Attest_serializes_the_quoted_record (w : Producer) (opts : AttestOptions)
    (a : Attestation) :
  In (Call_proto_Marshal a) (trace_of (Attest w opts)) \/
  In (Call_prototext_Format a) (trace_of (Attest w opts)) ->
  (In (Call_proto_Marshal a) (trace_of (Attest w opts)) <-> Format opts = "binarypb") /\
  exists f o a0,
    In (Call_Key_Attest f o) (trace_of (Attest w opts)) /\
    Key_Attest w f o = inl a0 /\
    if String.eqb (Key opts) "gceAK" then
      exists info,
        metadata_answers w info /\
        a = {| AkPub := AkPub a0; Quotes := Quotes a0; EventLog := EventLog a0;
               InstanceInfo := Some info; att_TeeAttestation := att_TeeAttestation a0 |}
    else a = a0.
Proof.
  attest_paths; intros [H|H]; in_cases H; subst;
    (split;
     [split; [intros G; in_cases G; eqb_hyps; assumption
             |intros G; eqb_hyps; first [congruence | cbn; auto 20]]
     |eexists _, _, _; split; [cbn; auto 20|]; split; [eassumption|];
      eqb_hyps; first [reflexivity
                      |eexists; split; [|reflexivity]; unfold metadata_answers; cbn; eauto 12]]).
Qed.

Lemma Attest_serializes_the_quoted_record_witness :
  let info := {| ProjectId := "p"; ProjectNumber := 1; Zone := "z"; InstanceId := 1;
                 InstanceName := "i" |} in
  let a := {| AkPub := []; Quotes := nonce0; EventLog := []; InstanceInfo := Some info;
              att_TeeAttestation := Some (Attestation_TdxAttestation teeNonce0) |} in
  In (Call_prototext_Format a) (trace_of (Attest (stub_producer true None) opts_gce_tdx)) /\
  ~ In (Call_proto_Marshal a) (trace_of (Attest (stub_producer true None) opts_gce_tdx)).
Proof.
  cbv zeta.
  assert (H : In (Call_prototext_Format
                    {| AkPub := []; Quotes := nonce0; EventLog := [];
                       InstanceInfo := Some {| ProjectId := "p"; ProjectNumber := 1;
                                               Zone := "z"; InstanceId := 1;
                                               InstanceName := "i" |};
                       att_TeeAttestation := Some (Attestation_TdxAttestation teeNonce0) |})
                 (trace_of (Attest (stub_producer true None) opts_gce_tdx))).
  { do 12 right. left. reflexivity. }
  split; [exact H|].
  intros G.
  pose proof (proj1 (proj1 (Attest_serializes_the_quoted_record _ _ _ (or_intror H))) G) as F.
  discriminate F.
Defined.

(** X20: the metadata server is asked only for the key type gceAK, and for
    gceAK an incomplete answer aborts the call: when some question fails or
    a number does not parse, nothing is serialized and no bytes are
    returned. *)
Theorem Attest_enrichment_all_or_nothing (w : Producer) (opts : AttestOptions) :
  (Key opts <> "gceAK" ->
   List.filter is_metadata_call (trace_of (Attest w opts)) = []) /\
  (Key opts = "gceAK" -> (forall info, ~ metadata_answers w info) ->
   List.filter is_serialization (trace_of (Attest w opts)) = [] /\
   forall out e, result_of (Attest w opts) <> Done (Some out, e)).
Proof.
  split.
  - intros N. attest_paths; eqb_hyps; try reflexivity; contradiction.
  - intros K N. attest_paths; eqb_hyps; try (split; [reflexivity|discriminate]);
      try congruence;
      exfalso;
      match goal with
      | H1 : metadata_ProjectID w = inl ?p, H2 : metadata_NumericProjectID w = inl ?pn,
        H3 : strconv_ParseUint w ?pn = inl ?n, H4 : metadata_Zone w = inl ?z,
        H5 : metadata_InstanceID w = inl ?i, H6 : strconv_ParseUint w ?i = inl ?i',
        H7 : metadata_InstanceName w = inl ?nm |- _ =>
          apply (N {| ProjectId := p; ProjectNumber := n; Zone := z; InstanceId := i';
                      InstanceName := nm |});
          exists pn, i; cbn; auto 10
      end.
Qed.

Lemma Attest_enrichment_all_or_nothing_witness :
  Key DefaultAttestOptions <> "gceAK" /\
  List.filter is_metadata_call
    (trace_of (Attest (stub_producer true None) DefaultAttestOptions)) = [].
Proof.
  split; [discriminate|].
  apply (proj1 (Attest_enrichment_all_or_nothing (stub_producer true None)
                  DefaultAttestOptions)).
  discriminate.
Defined.

(** X22: [GetAttestation] adds one decoding to [Attest] and nothing else.
    A panic or an error of [Attest] is passed on as it is, with no decoder
    called; bytes are decoded by the decoder of the format they were encoded
    in, the binary decoder for binarypb and the text decoder otherwise, and
    the record decoded is returned, or the decoder's error, wrapped. *)
Theorem GetAttestation_cases (w : Producer) (opts : AttestOptions) :
  (result_of (Attest w opts) = Panicked ->
   GetAttestation w opts = (trace_of (Attest w opts), Panicked)) /\
  (forall out err, result_of (Attest w opts) = Done (out, Some err) ->
   GetAttestation w opts = (trace_of (Attest w opts), Done (None, Some err))) /\
  (forall out, result_of (Attest w opts) = Done (Some out, None) ->
   GetAttestation w opts =
   (trace_of (Attest w opts) ++
      [if String.eqb (Format opts) "binarypb"
       then Call_proto_Unmarshal out else Call_prototext_Unmarshal out],
    Done match (if String.eqb (Format opts) "binarypb"
                then attest_proto_Unmarshal w out else prototext_Unmarshal w out) with
         | inl a => (Some a, None)
         | inr err => (None, Some (Errorf "failed to unmarshal attestation proto: %v"
                                          [ArgError (Some err)]))
         end)).
Proof.
  destruct (Attest w opts) as [t r] eqn:H. unfold result_of, trace_of; cbn [fst snd].
  split; [|split].
  - intros ->. unfold GetAttestation. rewrite H. reflexivity.
  - intros out err ->. unfold GetAttestation. rewrite H. go_unfold.
    rewrite app_nil_r. reflexivity.
  - intros out ->. rewrite (GetAttestation_decodes_Attest_output w opts t out H).
    destruct (String.eqb (Format opts) "binarypb"); reflexivity.
Qed.

Lemma GetAttestation_cases_witness :
  result_of (Attest (stub_producer true None) opts_stray_TeeNonce) =
    Done (None, Some (Errorf
      "use of TeeNonce requires specifying TEE hardware type with TeeTechnology" [])) /\
  GetAttestation (stub_producer true None) opts_stray_TeeNonce =
    (trace_of (Attest (stub_producer true None) opts_stray_TeeNonce),
     Done (None, Some (Errorf
       "use of TeeNonce requires specifying TEE hardware type with TeeTechnology" []))).
Proof.
  split; [reflexivity|].
  apply (proj1 (proj2 (GetAttestation_cases (stub_producer true None) opts_stray_TeeNonce))
           None).
  reflexivity.
Defined.

(** X21: the default options pass every validation, on every platform:
    [Attest] on them never panics and never fails with an argument error; it
    derives the RSA attestation key, opens no evidence provider, asks the
    metadata server nothing, and encodes in binary only. *)
Theorem DefaultAttestOptions_valid (w : Producer) :
  result_of (Attest w DefaultAttestOptions) <> Panicked /\
  (forall out e, result_of (Attest w DefaultAttestOptions) = Done (out, Some e) ->
     AttestErrorKind e <> Some InvalidArgument) /\
  (forall f, In (Call_createFunc f) (trace_of (Attest w DefaultAttestOptions)) ->
     f = client_AttestationKeyRSA) /\
  List.filter opens_evidence_provider (trace_of (Attest w DefaultAttestOptions)) = [] /\
  List.filter is_metadata_call (trace_of (Attest w DefaultAttestOptions)) = [] /\
  forall a, ~ In (Call_prototext_Format a) (trace_of (Attest w DefaultAttestOptions)).
Proof.
  assert (E : Attest w DefaultAttestOptions =
    match tpm2_OpenTPM w with
    | Some err =>
        ([Call_OpenTPM],
         Done (None, Some (Errorf "failed to open TPM: %v" [ArgError (Some err)])))
    | None =>
        match run_createFunc w client_AttestationKeyRSA with
        | Some _ =>
            ([Call_OpenTPM; Call_createFunc client_AttestationKeyRSA; Call_rwc_Close],
             Done (None, Some (Errorf "failed to create attestation key: %v" [ArgError None])))
        | None =>
            let o := {| ao_Nonce := []; TCGEventLog := []; ao_TEEDevice := None;
                        TEENonce := [] |} in
            match client_GetEventLog w with
            | inr err =>
                ([Call_OpenTPM; Call_createFunc client_AttestationKeyRSA; Call_GetEventLog;
                  Call_Key_Close client_AttestationKeyRSA; Call_rwc_Close],
                 Done (None, Some (Errorf "failed to retrieve TCG Event Log: %w"
                                          [ArgError (Some err)])))
            | inl log =>
                let o := {| ao_Nonce := []; TCGEventLog := log; ao_TEEDevice := None;
                            TEENonce := [] |} in
                match Key_Attest w client_AttestationKeyRSA o with
                | inr err =>
                    ([Call_OpenTPM; Call_createFunc client_AttestationKeyRSA;
                      Call_GetEventLog; Call_Key_Attest client_AttestationKeyRSA o;
                      Call_Key_Close client_AttestationKeyRSA; Call_rwc_Close],
                     Done (None, Some (Errorf "failed to collect attestation report : %v"
                                              [ArgError (Some err)])))
                | inl a =>
                    ([Call_OpenTPM; Call_createFunc client_AttestationKeyRSA;
                      Call_GetEventLog; Call_Key_Attest client_AttestationKeyRSA o;
                      Call_proto_Marshal a;
                      Call_Key_Close client_AttestationKeyRSA; Call_rwc_Close],
                     Done match proto_Marshal w a with
                          | inr _ =>
                              (None, Some (Errorf "failed to marshal attestation proto: %v"
                                                  [ArgAttestation a]))
                          | inl out => (Some out, None)
                          end)
                end
            end
        end
    end).
  { unfold Attest. cbn [Key KeyAlgo Format TeeTechnology TeeNonce Nonce DefaultAttestOptions].
    rewrite attestationKeys_AK. go_unfold.
    destruct (tpm2_OpenTPM w); [reflexivity|].
    cbn -[lookup]. rewrite lookup_insert_eq.
    destruct (run_createFunc w client_AttestationKeyRSA); [reflexivity|].
    cbn. destruct (client_GetEventLog w) as [log|err]; [|reflexivity].
    cbn. destruct (Key_Attest w client_AttestationKeyRSA _) as [a|err]; [|reflexivity].
    cbn. destruct (proto_Marshal w a); reflexivity. }
  rewrite E. clear E. unfold result_of, trace_of.
  destruct (tpm2_OpenTPM w);
    [|destruct (run_createFunc w client_AttestationKeyRSA);
      [|cbv zeta; destruct (client_GetEventLog w);
        [destruct (Key_Attest w client_AttestationKeyRSA _);
         [destruct (proto_Marshal w _)|]|]]];
    cbn [fst snd];
    (split; [discriminate|]);
    (split; [intros ? ? G; first [discriminate G|injection G as <- <-; discriminate]|]);
    (split; [intros f H; in_cases H; reflexivity|]);
    (split; [reflexivity|]); (split; [reflexivity|]);
    intros a' H; in_cases H.
Qed.

Lemma DefaultAttestOptions_valid_witness :
  let e := Errorf "failed to open TPM: %v"
             [ArgError (Some (ExternalError "open /dev/tpmrm0: no such file"))] in
  result_of (Attest (stub_producer false None) DefaultAttestOptions) = Done (None, Some e) /\
  AttestErrorKind e <> Some InvalidArgument.
Proof.
  cbv zeta. split; [reflexivity|].
  apply (proj1 (proj2 (DefaultAttestOptions_valid (stub_producer false None))) None).
  reflexivity.
Defined.

(** * Properties of the foreign-call bridge *)

Lemma C_int_small (n : Z) : - 2 ^ 31 <= n < 2 ^ 31 -> C_int n = n.
Proof.
  intros H. unfold C_int.
  rewrite Z.mod_small by lia. lia.
Qed.

(** X23: the bridge never turns a failed verification into a success.
    When [VerifyAttestation] returns an error the bridge makes no further
    call and hands back the error response with the status -1; and every
    status other than -1 comes with a payload that is an encoding of the
    verified machine state (the protojson encoding, or the json one when
    protojson failed), the status being the payload's length as a
    [C.int]. *)
Theorem FFI_never_degrades_failure (w : Verifier) (j : Bridge) (b : bytes) (format : string)
    (nonce teeNonce : bytes) :
  (forall s err, result_of (VerifyAttestation w b format nonce teeNonce) = Done (s, Some err) ->
     VerifyAttestationFFI w j b format nonce teeNonce =
     (trace_of (VerifyAttestation w b format nonce teeNonce),
      Done (drop_error (json_Marshal_errorResponse j (err_Error j err)), -1))) /\
  (forall payload status,
     result_of (VerifyAttestationFFI w j b format nonce teeNonce) = Done (payload, status) ->
     status <> -1 ->
     exists ms,
       result_of (VerifyAttestation w b format nonce teeNonce) = Done (Some ms, None) /\
       (protojson_Marshal j (Some ms) = inl payload \/
        exists e, protojson_Marshal j (Some ms) = inr e /\
                  json_Marshal j (Some ms) = inl payload) /\
       status = C_int (Z.of_nat (length payload))).
Proof.
  split.
  - intros s err H. unfold VerifyAttestationFFI.
    destruct (VerifyAttestation w b format nonce teeNonce) as [t r].
    unfold result_of in H; cbn [snd] in H. subst r. go_unfold.
    rewrite app_nil_r. reflexivity.
  - intros payload status.
    pose proof (verify_stages_shape w b format nonce teeNonce) as S.
    rewrite <- VerifyAttestation_result in S.
    unfold VerifyAttestationFFI.
    destruct (VerifyAttestation w b format nonce teeNonce) as [t [r|]];
      unfold result_of in *; cbn [snd] in *; go_unfold; [|discriminate].
    destruct (S r eq_refl) as [[e ->]|[ms ->]].
    + intros [= <- <-] N. contradiction N. reflexivity.
    + destruct (protojson_Marshal j (Some ms)) as [p|e] eqn:P.
      * intros [= <- <-] _. exists ms. eauto.
      * destruct (json_Marshal j (Some ms)) as [p|e2] eqn:J.
        -- intros [= <- <-] _. exists ms. eauto 6.
        -- intros [= <- <-] N. contradiction N. reflexivity.
Qed.

Lemma FFI_never_degrades_failure_witness :
  let w := stub_verifier (record_with None) false GCEConfidentialTechnology_NONE true true in
  result_of (VerifyAttestation w [] "binarypb" nonce0 []) =
    Done (None, Some (Errorf "verifying TPM attestation: %w"
                             [ArgError (Some (ExternalError "quote: nonce mismatch"))])) /\
  result_of (VerifyAttestationFFI w (stub_bridge true) [] "binarypb" nonce0 []) =
    Done ([Byte.x7b; Byte.x7d], -1).
Proof.
  cbv zeta. split; [reflexivity|].
  rewrite (proj1 (FFI_never_degrades_failure
                    (stub_verifier (record_with None) false GCEConfidentialTechnology_NONE
                       true true)
                    (stub_bridge true) [] "binarypb" nonce0 []) None _ eq_refl).
  reflexivity.
Defined.

(** X24: on success the status is the length of the payload: for every
    payload shorter than 2^31 bytes that the bridge hands back with a status
    other than -1, the status is the length of the payload, so it is not
    negative. *)
Theorem FFI_status_is_length (w : Verifier) (j : Bridge) (b : bytes) (format : string)
    (nonce teeNonce : bytes) (payload : bytes) (status : Z) :
  result_of (VerifyAttestationFFI w j b format nonce teeNonce) = Done (payload, status) ->
  status <> -1 ->
  Z.of_nat (length payload) < 2 ^ 31 ->
  status = Z.of_nat (length payload) /\ 0 <= status.
Proof.
  intros H N L.
  destruct (proj2 (FFI_never_degrades_failure w j b format nonce teeNonce)
              payload status H N) as (ms & _ & _ & ->).
  rewrite C_int_small by lia. lia.
Qed.

Lemma FFI_status_is_length_witness :
  let w := stub_verifier (record_with None) true GCEConfidentialTechnology_NONE true true in
  result_of (VerifyAttestationFFI w (stub_bridge false) [] "binarypb" nonce0 []) =
    Done ([Byte.x7b; Byte.x32; Byte.x32; Byte.x7d], 4) /\
  (4 : Z) = Z.of_nat (length [Byte.x7b; Byte.x32; Byte.x32; Byte.x7d]).
Proof.
  cbv zeta. split; [reflexivity|].
  apply (FFI_status_is_length
           (stub_verifier (record_with None) true GCEConfidentialTechnology_NONE true true)
           (stub_bridge false) [] "binarypb" nonce0 []
           [Byte.x7b; Byte.x32; Byte.x32; Byte.x7d] 4);
    [reflexivity | discriminate | reflexivity].
Defined.

(** * Properties of the command line *)




